(** * dlog: a process-wide leveled logger (vendor/github.com/jedisct1/dlog/dlog.go)

    A shallow embedding of the Go package [dlog] and the statements of its
    specification.

    Conventions of the embedding:
    - a Go [string] is an immutable sequence of bytes: [list byte];
    - [Severity] is an [int32], kept as a [Z] with its wrap-around written out
      where the code converts to it;
    - the package-level variable [_globals] is threaded explicitly;
    - the operating system (clock, [os.OpenFile], [gsyslog.NewLogger]) is an
      explicit [world]; every side effect [logf] asks for is recorded, in
      order, in a trace of [event]s;
    - [panic] and [os.Exit] end the call with an [outcome] of their own; the
      package recovers from no panic, so either ends the process;
    - the text a call logs is taken as [fmt.Sprintf] rendered it; the line
      [logf] formats itself goes through a model of [fmt];
    - [int] is 64 bits wide. *)

From Stdlib Require Import ZArith List Lia Bool Arith.
From Stdlib Require Import Strings.Byte.
From Stdlib Require Strings.String.
Import ListNotations.
Import String.StringSyntax.
Delimit Scope string_scope with string.

Local Open Scope Z_scope.

(** ** Go strings *)

Definition gostring := list byte.

(** A string literal of the source. *)
Definition str (s : String.string) : gostring := String.list_byte_of_string s.
Arguments str s%_string.

Definition b2z (b : byte) : Z := Z.of_N (Byte.to_N b).

Fixpoint eqb_gostring (a b : gostring) : bool :=
  match a, b with
  | [], [] => true
  | x :: a', y :: b' => Byte.eqb x y && eqb_gostring a' b'
  | _, _ => false
  end.

(** [len(s)] *)
Definition len (s : gostring) : Z := Z.of_nat (length s).

(** ** Package unicode/utf8 and unicode (the part [strings.TrimSpace] uses) *)

Module utf8.

Definition RuneError : Z := 0xFFFD.
Definition RuneSelf : Z := 0x80.
Definition UTFMax : nat := 4.

Definition between (lo hi x : Z) : bool := (lo <=? x) && (x <=? hi).

(** A continuation byte 10xxxxxx. *)
Definition cont (b : byte) : bool := between 0x80 0xBF (b2z b).

(** [RuneStart(b)]: b is not a continuation byte. *)
Definition RuneStart (b : byte) : bool :=
  negb (Z.land (b2z b) 0xC0 =? 0x80).

Definition low6 (b : byte) : Z := Z.land (b2z b) 0x3F.

(** [DecodeRuneInString]: the first rune of [s] and its width in bytes;
    an invalid or short encoding is [(RuneError, 1)], the empty string
    [(RuneError, 0)]. *)
Definition DecodeRuneInString (s : gostring) : Z * nat :=
  match s with
  | [] => (RuneError, 0%nat)
  | b0 :: t =>
    let x := b2z b0 in
    if x <? RuneSelf then (x, 1%nat)
    else if between 0xC2 0xDF x then
      match t with
      | b1 :: _ =>
        if cont b1
        then (Z.lor (Z.shiftl (Z.land x 0x1F) 6) (low6 b1), 2%nat)
        else (RuneError, 1%nat)
      | _ => (RuneError, 1%nat)
      end
    else if between 0xE0 0xEF x then
      match t with
      | b1 :: b2 :: _ =>
        let lo := if x =? 0xE0 then 0xA0 else 0x80 in
        let hi := if x =? 0xED then 0x9F else 0xBF in
        if between lo hi (b2z b1) && cont b2
        then (Z.lor (Z.shiftl (Z.land x 0x0F) 12)
                    (Z.lor (Z.shiftl (low6 b1) 6) (low6 b2)), 3%nat)
        else (RuneError, 1%nat)
      | _ => (RuneError, 1%nat)
      end
    else if between 0xF0 0xF4 x then
      match t with
      | b1 :: b2 :: b3 :: _ =>
        let lo := if x =? 0xF0 then 0x90 else 0x80 in
        let hi := if x =? 0xF4 then 0x8F else 0xBF in
        if between lo hi (b2z b1) && cont b2 && cont b3
        then (Z.lor (Z.shiftl (Z.land x 0x07) 18)
                    (Z.lor (Z.shiftl (low6 b1) 12)
                           (Z.lor (Z.shiftl (low6 b2) 6) (low6 b3))), 4%nat)
        else (RuneError, 1%nat)
      | _ => (RuneError, 1%nat)
      end
    else (RuneError, 1%nat)
  end.

(** The backwards scan of [DecodeLastRuneInString]: [before] holds the bytes
    that precede the last one, nearest first and at most [UTFMax - 1] of
    them; the result is the width of the window to decode. *)
Fixpoint scanStart (before : gostring) (k : nat) : nat :=
  match before with
  | [] => (k - 1)%nat
  | c :: rest => if RuneStart c then k else scanStart rest (S k)
  end.

(** [DecodeLastRuneInString]: the last rune of [s] and its width. *)
Definition DecodeLastRuneInString (s : gostring) : Z * nat :=
  match rev s with
  | [] => (RuneError, 0%nat)
  | b :: before =>
    if b2z b <? RuneSelf then (b2z b, 1%nat)
    else
      let k := scanStart (firstn (UTFMax - 1) before) 2 in
      let '(r, size) := DecodeRuneInString (skipn (length s - k) s) in
      if Nat.eqb size k then (r, size) else (RuneError, 1%nat)
  end.

End utf8.

Module unicode.

(** [unicode.IsSpace]: the Latin-1 spaces and the White_Space property. *)
Definition IsSpace (r : Z) : bool :=
  utf8.between 0x09 0x0D r || (r =? 0x20) || (r =? 0x85) || (r =? 0xA0)
  || (r =? 0x1680) || utf8.between 0x2000 0x200A r
  || (r =? 0x2028) || (r =? 0x2029) || (r =? 0x202F) || (r =? 0x205F)
  || (r =? 0x3000).

End unicode.

(** ** Package strings *)

Module strings.

(** [HasSuffix(s, suffix)] *)
Definition HasSuffix (s suffix : gostring) : bool :=
  (length suffix <=? length s)%nat
  && eqb_gostring (skipn (length s - length suffix) s) suffix.

(** [TrimSuffix(s, suffix)]: [s] without the trailing [suffix], once. *)
Definition TrimSuffix (s suffix : gostring) : gostring :=
  if HasSuffix s suffix then firstn (length s - length suffix) s else s.

(** [TrimLeftFunc]: drop leading runes while [f] holds. Each round drops at
    least one byte, so [length s] rounds always suffice. *)
Fixpoint trimLeft (fuel : nat) (f : Z -> bool) (s : gostring) : gostring :=
  match fuel with
  | O => s
  | S n =>
    match s with
    | [] => []
    | _ :: _ =>
      let '(r, size) := utf8.DecodeRuneInString s in
      if f r then trimLeft n f (skipn size s) else s
    end
  end.

Definition TrimLeftFunc (s : gostring) (f : Z -> bool) : gostring :=
  trimLeft (length s) f s.

(** [TrimRightFunc]: drop trailing runes while [f] holds. *)
Fixpoint trimRight (fuel : nat) (f : Z -> bool) (s : gostring) : gostring :=
  match fuel with
  | O => s
  | S n =>
    match s with
    | [] => []
    | _ :: _ =>
      let '(r, size) := utf8.DecodeLastRuneInString s in
      if f r then trimRight n f (firstn (length s - size) s) else s
    end
  end.

Definition TrimRightFunc (s : gostring) (f : Z -> bool) : gostring :=
  trimRight (length s) f s.

(** [TrimSpace(s)]: [s] without leading and trailing white space, as
    defined by Unicode. *)
Definition TrimSpace (s : gostring) : gostring :=
  TrimRightFunc (TrimLeftFunc s unicode.IsSpace) unicode.IsSpace.

End strings.

(** The line feed of ["\n"]. *)
Definition LF : gostring := [x0a].

(** ** Package strconv *)

Module strconv.

(** [int] and [int64] are 64 bits wide (a 64-bit platform). *)
Definition intSize : Z := 64.
Definition maxUint64 : Z := 2 ^ 64 - 1.

(** The table ["0123456789"] indexed by a digit value. *)
Definition digit (d : Z) : byte :=
  match d with
  | 0 => x30 | 1 => x31 | 2 => x32 | 3 => x33 | 4 => x34
  | 5 => x35 | 6 => x36 | 7 => x37 | 8 => x38 | _ => x39
  end.

(** The loop of [formatBits] in base 10: digits are produced right to left;
    a [uint64] has at most 20 of them. *)
Fixpoint formatBits (fuel : nat) (u : Z) (a : gostring) : gostring :=
  match fuel with
  | O => a
  | S n =>
    if 10 <=? u
    then formatBits n (u / 10) (digit (u - (u / 10) * 10) :: a)
    else digit u :: a
  end.

Definition digits10 (u : Z) : gostring := formatBits 20 u [].

(** [FormatInt(i, 10)] *)
Definition FormatInt (i : Z) : gostring :=
  if i <? 0 then x2d :: digits10 (- i) else digits10 i.

Inductive NumError := ErrSyntax | ErrRange.

(** The loop of [ParseUint(s, 10, 64)]: [n] is the [uint64] accumulator.
    The overflow tests come before the next byte is looked at, so a range
    error is reported as soon as the digits read so far overflow. *)
Fixpoint parseDigits (s : gostring) (n : Z) : Z * option NumError :=
  match s with
  | [] => (n, None)
  | c :: rest =>
    let d := b2z c in
    if utf8.between 0x30 0x39 d then
      let v := d - 0x30 in
      let cutoff := maxUint64 / 10 + 1 in
      if cutoff <=? n then (maxUint64, Some ErrRange)
      else
        let n10 := n * 10 in
        let n1 := (n10 + v) mod 2 ^ 64 in
        if (n1 <? n10) || (maxUint64 <? n1) then (maxUint64, Some ErrRange)
        else parseDigits rest n1
    else (0, Some ErrSyntax)
  end.

Definition ParseUint (s : gostring) : Z * option NumError :=
  match s with
  | [] => (0, Some ErrSyntax)
  | _ :: _ => parseDigits s 0
  end.

(** [ParseInt(s, 10, 0)] *)
Definition ParseInt (s : gostring) : Z * option NumError :=
  match s with
  | [] => (0, Some ErrSyntax)
  | c :: rest =>
    let neg := Byte.eqb c x2d in
    let s' := if Byte.eqb c x2b || neg then rest else s in
    let '(un, err) := ParseUint s' in
    match err with
    | Some ErrSyntax => (0, err)
    | _ =>
      let cutoff := 2 ^ (intSize - 1) in
      if negb neg && (cutoff <=? un) then (cutoff - 1, Some ErrRange)
      else if neg && (cutoff <? un) then (- cutoff, Some ErrRange)
      else (if neg then - un else un, None)
    end
  end.

(** [Atoi(s)] is [ParseInt(s, 10, 0)] converted to [int]. *)
Definition Atoi (s : gostring) : Z * option NumError := ParseInt s.

End strconv.

(** ** Package fmt (the verbs [logf] and [Init] use) *)

Module fmt.

(** An operand of [Sprintf]. *)
Inductive arg :=
| Int (v : Z)
| String (s : gostring).

(** A format string, cut into literal text and verbs: [%d] with its
    optional [0] flag and width, and [%s]. *)
Inductive directive :=
| Lit (s : gostring)
| Verb_d (zero : bool) (wid : option Z)
| Verb_s.

(** [f.pad]: left padding with spaces up to the width, if there is one. *)
Definition pad (wid : option Z) (b : gostring) : gostring :=
  match wid with
  | Some w => repeat x20 (Z.to_nat (w - len b)) ++ b
  | None => b
  end.

(** [fmtInteger] in base 10 for a signed operand. With the [0] flag and a
    width the digits are zero-padded to the width, less one when a sign is
    written. *)
Definition fmtInteger (zero : bool) (wid : option Z) (v : Z) : gostring :=
  let negative := v <? 0 in
  let u := if negative then - v else v in
  let prec :=
    match wid with
    | Some w => if zero then (if negative then w - 1 else w) else 0
    | None => 0
    end in
  let ds := strconv.digits10 u in
  let buf := repeat x30 (Z.to_nat (prec - len ds)) ++ ds in
  pad wid (if negative then x2d :: buf else buf).

(** [type=value], as the diagnostics of [fmt] print an operand. *)
Definition typedValue (a : arg) : gostring :=
  match a with
  | Int v => str "int=" ++ fmtInteger false None v
  | String s => str "string=" ++ s
  end.

Fixpoint extra (a : list arg) : gostring :=
  match a with
  | [] => []
  | [x] => typedValue x
  | x :: rest => typedValue x ++ str ", " ++ extra rest
  end.

(** [doPrintf]: operands are consumed left to right; a verb without an
    operand, an operand of the wrong type and left-over operands are
    reported in the output, as [fmt] does. *)
Fixpoint doPrintf (f : list directive) (a : list arg) : gostring :=
  match f with
  | [] =>
    match a with
    | [] => []
    | _ :: _ => str "%!(EXTRA " ++ extra a ++ str ")"
    end
  | Lit s :: f' => s ++ doPrintf f' a
  | Verb_d zero wid :: f' =>
    match a with
    | [] => str "%!d(MISSING)" ++ doPrintf f' []
    | Int v :: a' => fmtInteger zero wid v ++ doPrintf f' a'
    | String s :: a' => str "%!d(" ++ typedValue (String s) ++ str ")" ++ doPrintf f' a'
    end
  | Verb_s :: f' =>
    match a with
    | [] => str "%!s(MISSING)" ++ doPrintf f' []
    | String s :: a' => s ++ doPrintf f' a'
    | Int v :: a' => str "%!s(" ++ typedValue (Int v) ++ str ")" ++ doPrintf f' a'
    end
  end.

(** Reading a format string: where the scanner is. *)
Inductive scan :=
| Text
| Percent
| Width (zero : bool) (wid : option Z).

Definition lit (c : byte) (f : list directive) : list directive :=
  match f with
  | Lit s :: f' => Lit (c :: s) :: f'
  | _ => Lit [c] :: f
  end.

Definition addDigit (wid : option Z) (d : Z) : option Z :=
  match wid with
  | Some w => Some (w * 10 + d)
  | None => Some d
  end.

(** The format strings made of text, [%%], [%s] and [%d] with a [0] flag
    and a width; [None] for any other format. *)
Fixpoint parseFormat (st : scan) (s : gostring) : option (list directive) :=
  match s with
  | [] => match st with Text => Some [] | _ => None end
  | c :: rest =>
    match st with
    | Text =>
      if Byte.eqb c x25 then parseFormat Percent rest
      else option_map (lit c) (parseFormat Text rest)
    | Percent =>
      if Byte.eqb c x25 then option_map (lit c) (parseFormat Text rest)
      else if Byte.eqb c x73 then option_map (cons Verb_s) (parseFormat Text rest)
      else if Byte.eqb c x64
      then option_map (cons (Verb_d false None)) (parseFormat Text rest)
      else if Byte.eqb c x30 then parseFormat (Width true None) rest
      else if utf8.between 0x31 0x39 (b2z c)
      then parseFormat (Width false (Some (b2z c - 0x30))) rest
      else None
    | Width zero wid =>
      if Byte.eqb c x64
      then option_map (cons (Verb_d zero wid)) (parseFormat Text rest)
      else if utf8.between 0x30 0x39 (b2z c)
      then parseFormat (Width zero (addDigit wid (b2z c - 0x30))) rest
      else None
    end
  end.

(** [Sprintf] on a format that has been read. *)
Definition Sprintf (f : list directive) (a : list arg) : gostring :=
  doPrintf f a.

End fmt.

(** ** Package dlog: data *)

(** [type Severity int32] *)
Definition Severity := Z.

(** The conversion [Severity(val)] of an [int]: the low 32 bits, signed. *)
Definition to_int32 (v : Z) : Severity := (v + 2 ^ 31) mod 2 ^ 32 - 2 ^ 31.

Definition SeverityDebug : Severity := 0.
Definition SeverityInfo : Severity := 1.
Definition SeverityNotice : Severity := 2.
Definition SeverityWarning : Severity := 3.
Definition SeverityError : Severity := 4.
Definition SeverityCritical : Severity := 5.
Definition SeverityFatal : Severity := 6.
Definition SeverityLast : Severity := 7.

Definition SeverityName : list gostring :=
  [ str "DEBUG"; str "INFO"; str "NOTICE"; str "WARNING"; str "ERROR";
    str "CRITICAL"; str "FATAL" ].

(** [gsyslog.Priority] *)
Inductive Priority :=
| LOG_EMERG | LOG_ALERT | LOG_CRIT | LOG_ERR
| LOG_WARNING | LOG_NOTICE | LOG_INFO | LOG_DEBUG.

Definition severityToSyslogPriority : list Priority :=
  [ LOG_DEBUG; LOG_INFO; LOG_NOTICE; LOG_WARNING; LOG_ERR; LOG_CRIT;
    LOG_ALERT ].

(** A Go [error] value, by its message. *)
Definition error := gostring.

(** A [gsyslog.Syslogger] client, by the identity the library gave it. *)
Definition Syslogger := Z.

(** An [*os.File]: the standard error stream or a file [os.OpenFile]
    returned, by its descriptor. *)
Inductive File :=
| Stderr
| Opened (fd : Z).

(** [type globals struct]; a pointer is [None] when nil. [useSyslog] and
    [fileName] point to variables owned by package flag: the model keeps the
    value they point to. The embedded [sync.Mutex] shows in the events
    [Lock] and [Unlock]. *)
Record globals := mkGlobals {
  logLevel : Severity;
  useSyslog : option bool;
  appName : gostring;
  syslogFacility : gostring;
  syslogger : option Syslogger;
  fileName : option gostring;
  outFd : option File
}.

(** [var _globals = globals{logLevel: SeverityLast, appName: "-"}] *)
Definition _globals : globals :=
  {| logLevel := SeverityLast;
     useSyslog := None;
     appName := str "-";
     syslogFacility := [];
     syslogger := None;
     fileName := None;
     outFd := None |}.

Definition set_logLevel (v : Severity) (g : globals) : globals :=
  mkGlobals v (useSyslog g) (appName g) (syslogFacility g) (syslogger g)
            (fileName g) (outFd g).

Definition set_syslogger (l : Syslogger) (g : globals) : globals :=
  mkGlobals (logLevel g) (useSyslog g) (appName g) (syslogFacility g)
            (Some l) (fileName g) (outFd g).

Definition set_outFd (f : File) (g : globals) : globals :=
  mkGlobals (logLevel g) (useSyslog g) (appName g) (syslogFacility g)
            (syslogger g) (fileName g) (Some f).

(** ** The world outside the package *)

(** What [time.Now()] answers: [now.Date()] and [now.Clock()]. *)
Record Time := mkTime {
  year : Z; month : Z; day : Z;
  hour : Z; minute : Z; second : Z
}.

Record world := mkWorld {
  Now : Time;
  (** [gsyslog.NewLogger(priority, facility, tag)] *)
  NewLogger : Priority -> gostring -> gostring -> Syslogger + error;
  (** [os.OpenFile(name, flag, perm)]: a descriptor or an error *)
  OpenFile : gostring -> Z -> Z -> Z + error
}.

(** [os.O_WRONLY], [os.O_APPEND], [os.O_CREATE] (Linux values). *)
Definition O_WRONLY : Z := 0x1.
Definition O_APPEND : Z := 0x400.
Definition O_CREATE : Z := 0x40.
(** The permission bits [0644], in octal. *)
Definition perm0644 : Z := 6 * 64 + 4 * 8 + 4.

(** The side effects of a call, in the order they happen. *)
Inductive event :=
| Lock
| Unlock
| CallNewLogger (p : Priority) (facility tag : gostring)
| CallOpenFile (name : gostring) (flag perm : Z)
| WriteLevel (l : Syslogger) (p : Priority) (b : gostring)
| WriteString (f : File) (s : gostring)
| Sync (f : File).

(** What a panic carries. *)
Inductive panicValue :=
| PanicError (e : error)
| NilDereference
| IndexOutOfRange (i n : Z).

(** The [return] statements of [logf]. *)
Inductive returnPoint :=
| Filtered     (* line 161: below the threshold *)
| Discarded    (* line 169: empty message *)
| Completed.   (* end of the function body *)

(** How a call ends. *)
Inductive outcome :=
| Returned (at_ : returnPoint)
| Exited (code : Z)
| Panicked (v : panicValue).

(** ** A monad for [logf]: state [globals], a trace of events, and the ways
    to leave the function early *)

Inductive result (A : Type) :=
| Val (a : A)
| Stop (o : outcome).
Arguments Val {A} a.
Arguments Stop {A} o.

Definition M (A : Type) : Type := globals -> result A * globals * list event.

Definition ret {A} (a : A) : M A := fun g => (Val a, g, []).

Definition bind {A B} (m : M A) (k : A -> M B) : M B :=
  fun g =>
    match m g with
    | (Val a, g1, t1) =>
      let '(r, g2, t2) := k a g1 in (r, g2, t1 ++ t2)
    | (Stop o, g1, t1) => (Stop o, g1, t1)
    end.

Notation "x <- m ;; k" := (bind m (fun x => k))
  (at level 61, m at next level, right associativity).
Notation "m ;; k" := (bind m (fun _ => k))
  (at level 61, right associativity).

Definition get : M globals := fun g => (Val g, g, []).
Definition modify (f : globals -> globals) : M unit := fun g => (Val tt, f g, []).
Definition emit (e : event) : M unit := fun g => (Val tt, g, [e]).
Definition leave {A} (o : outcome) : M A := fun g => (Stop o, g, []).

(** [return] *)
Definition return_ {A} (p : returnPoint) : M A := leave (Returned p).
(** [panic(v)] *)
Definition panic {A} (v : panicValue) : M A := leave (Panicked v).
(** [os.Exit(code)] *)
Definition os_Exit {A} (code : Z) : M A := leave (Exited code).

(** [*p] *)
Definition deref {A} (p : option A) : M A :=
  match p with
  | Some a => ret a
  | None => panic NilDereference
  end.

(** [table[i]] *)
Definition index {A} (table : list A) (i : Z) : M A :=
  match (if 0 <=? i then nth_error table (Z.to_nat i) else None) with
  | Some a => ret a
  | None => panic (IndexOutOfRange i (Z.of_nat (length table)))
  end.

(** [if c { m }] *)
Definition when (c : bool) (m : M unit) : M unit :=
  if c then m else ret tt.

(** [defer d] followed by the rest of the function, [body]: [d] runs when
    the function returns or panics; [os.Exit] runs no deferred call. *)
Definition defer (d : M unit) (body : M unit) : M unit :=
  fun g =>
    match body g with
    | (Stop (Exited c), g1, t1) => (Stop (Exited c), g1, t1)
    | (r, g1, t1) => let '(_, g2, t2) := d g1 in (r, g2, t1 ++ t2)
    end.

Definition isNil {A} (p : option A) : bool :=
  match p with Some _ => false | None => true end.

(** ** Package dlog: operations *)

(** [func (s *Severity) get() Severity]: an atomic load of [*s]. *)
Definition Severity_get (s : Severity) : Severity := s.

(** [func (s *Severity) set(val Severity)]: an atomic store; the result is
    the new [*s]. *)
Definition Severity_set (s : Severity) (val : Severity) : Severity := val.

(** [func (s *Severity) String() string] *)
Definition Severity_String (s : Severity) : gostring := strconv.FormatInt s.

(** [func (s *Severity) Set(strVal string) error]: the error of [Atoi] is
    dropped; the result is the returned error and the new [*s]. *)
Definition Severity_Set (s : Severity) (strVal : gostring)
  : option error * Severity :=
  let '(val, _) := strconv.Atoi strVal in
  (None, Severity_set s (to_int32 val)).

(** A flag of package flag, as [flag.Bool], [flag.String] and [flag.Var]
    define it. *)
Record Flag := mkFlag {
  Name : gostring;
  DefValue : gostring;
  Usage : gostring
}.

(** ["Log level (%d-%d)"] *)
Definition usageFormat : list fmt.directive :=
  [ fmt.Lit (str "Log level ("); fmt.Verb_d false None; fmt.Lit (str "-");
    fmt.Verb_d false None; fmt.Lit (str ")") ].

(** Package flag: [flag.CommandLine], the flags defined so far, in the
    order they were defined. *)
Definition FlagSet := list Flag.

Definition isDefined (name : gostring) (fs : FlagSet) : bool :=
  existsb (fun f => eqb_gostring (Name f) name) fs.

(** [flag.Bool], [flag.String] and [flag.Var] all go through [FlagSet.Var]:
    a name that is already defined makes it panic with [flag redefined];
    otherwise the flag is added. [None] is the panic. *)
Definition define (f : Flag) (fs : FlagSet) : option FlagSet :=
  if isDefined (Name f) fs then None else Some (fs ++ [f]).

(** How a call of [Init] ends: it returns its error value, or package flag
    panics on the name given. *)
Inductive initOutcome :=
| InitReturned (err : option error)
| FlagRedefined (name : gostring).

Definition set_useSyslog (p : option bool) (g : globals) : globals :=
  mkGlobals (logLevel g) p (appName g) (syslogFacility g) (syslogger g)
            (fileName g) (outFd g).

Definition set_fileName (p : option gostring) (g : globals) : globals :=
  mkGlobals (logLevel g) (useSyslog g) (appName g) (syslogFacility g)
            (syslogger g) p (outFd g).

(** [func Init(appName string, logLevel Severity, syslogFacility string) error],
    run on the globals [g] and the command-line flags [fs]: how it ends,
    and what it leaves of both. The statements run in the order of the
    source: threshold, application name and facility are stored first;
    then come [flag.Bool], [flag.String] and [flag.Var], each of which
    panics when its name is defined already, before the pointer it would
    return is stored. [flag.Bool] and [flag.String] return pointers to
    fresh variables that hold the defaults, [false] and [""]. *)
Definition Init (appName' : gostring) (logLevel' : Severity)
    (syslogFacility' : gostring) (g : globals) (fs : FlagSet)
  : initOutcome * globals * FlagSet :=
  let level := Severity_set (logLevel g) logLevel' in
  let syslogFacility' :=
    if len syslogFacility' =? 0 then str "DAEMON" else syslogFacility' in
  let g1 :=
    {| logLevel := level;
       useSyslog := useSyslog g;
       appName := appName';
       syslogFacility := syslogFacility';
       syslogger := syslogger g;
       fileName := fileName g;
       outFd := outFd g |} in
  match define (mkFlag (str "syslog") (str "false")
                       (str "Send logs to the local system logger")) fs with
  | None => (FlagRedefined (str "syslog"), g1, fs)
  | Some fs1 =>
    let g2 := set_useSyslog (Some false) g1 in
    match define (mkFlag (str "logfile") [] (str "Write logs to file"))
                 fs1 with
    | None => (FlagRedefined (str "logfile"), g2, fs1)
    | Some fs2 =>
      let g3 := set_fileName (Some []) g2 in
      match define (mkFlag (str "loglevel") (Severity_String level)
                           (fmt.Sprintf usageFormat
                              [fmt.Int SeverityDebug; fmt.Int SeverityFatal]))
                   fs2 with
      | None => (FlagRedefined (str "loglevel"), g3, fs2)
      | Some fs3 => (InitReturned None, g3, fs3)
      end
    end
  end.

(** ["[%d-%02d-%02d %02d:%02d:%02d] [%s] [%s] %s\n"] *)
Definition lineFormat : list fmt.directive :=
  [ fmt.Lit (str "["); fmt.Verb_d false None;
    fmt.Lit (str "-"); fmt.Verb_d true (Some 2);
    fmt.Lit (str "-"); fmt.Verb_d true (Some 2);
    fmt.Lit (str " "); fmt.Verb_d true (Some 2);
    fmt.Lit (str ":"); fmt.Verb_d true (Some 2);
    fmt.Lit (str ":"); fmt.Verb_d true (Some 2);
    fmt.Lit (str "] ["); fmt.Verb_s;
    fmt.Lit (str "] ["); fmt.Verb_s;
    fmt.Lit (str "] "); fmt.Verb_s;
    fmt.Lit LF ].

(** [func logf(severity Severity, format string, args ...interface{})].
    [text] is what [fmt.Sprintf(format, args...)] renders. *)
Definition logf (w : world) (severity : Severity) (text : gostring) : M unit :=
  g <- get ;;
  if severity <? Severity_get (logLevel g) then return_ Filtered else
  let now := Now w in
  let message := text in
  let message := strings.TrimSpace (strings.TrimSuffix message LF) in
  if len message <=? 0 then return_ Discarded else
  emit Lock ;;
  defer (emit Unlock) (
    g <- get ;;
    use <- deref (useSyslog g) ;;
    when (use && isNil (syslogger g)) (
      emit (CallNewLogger LOG_INFO (syslogFacility g) (appName g)) ;;
      match NewLogger w LOG_INFO (syslogFacility g) (appName g) with
      | inl l => modify (set_syslogger l)
      | inr err => panic (PanicError err)
      end) ;;
    g <- get ;;
    when (match fileName g with
          | Some name => (0 <? len name) && isNil (outFd g)
          | None => false
          end) (
      name <- deref (fileName g) ;;
      let flag := Z.lor (Z.lor O_WRONLY O_APPEND) O_CREATE in
      emit (CallOpenFile name flag perm0644) ;;
      match OpenFile w name flag perm0644 with
      | inl fd => modify (set_outFd (Opened fd))
      | inr err => panic (PanicError err)
      end) ;;
    g <- get ;;
    match syslogger g with
    | Some l =>
      p <- index severityToSyslogPriority severity ;;
      emit (WriteLevel l p message)
    | None =>
      name <- index SeverityName severity ;;
      let line :=
        fmt.Sprintf lineFormat
          [ fmt.Int (year now); fmt.Int (month now); fmt.Int (day now);
            fmt.Int (hour now); fmt.Int (minute now); fmt.Int (second now);
            fmt.String (appName g); fmt.String name; fmt.String message ] in
      match outFd g with
      | Some f => emit (WriteString f line) ;; emit (Sync f)
      | None => emit (WriteString Stderr line)
      end
    end ;;
    when (SeverityFatal <=? severity) (os_Exit 255)).

(** [func log(severity Severity, args interface{})]: [logf(severity, "%v", args)];
    [text] is what ["%v"] renders for [args]. *)
Definition log (w : world) (severity : Severity) (text : gostring) : M unit :=
  logf w severity text.

Definition Debugf w text := logf w SeverityDebug text.
Definition Infof w text := logf w SeverityInfo text.
Definition Noticef w text := logf w SeverityNotice text.
Definition Warnf w text := logf w SeverityWarning text.
Definition Errorf w text := logf w SeverityError text.
Definition Criticalf w text := logf w SeverityCritical text.
Definition Fatalf w text := logf w SeverityFatal text.

Definition Debug w text := log w SeverityDebug text.
Definition Info w text := log w SeverityInfo text.
Definition Notice w text := log w SeverityNotice text.
Definition Warn w text := log w SeverityWarning text.
Definition Error w text := log w SeverityError text.
Definition Critical w text := log w SeverityCritical text.
Definition Fatal w text := log w SeverityFatal text.

(** The exported logging functions. *)
Definition publicAPI : list (world -> gostring -> M unit) :=
  [ Debugf; Infof; Noticef; Warnf; Errorf; Criticalf; Fatalf;
    Debug; Info; Notice; Warn; Error; Critical; Fatal ].

(** One call of a function of the package, from the caller's side: falling
    off the end of the body is a return. *)
Definition call (m : M unit) (g : globals) : outcome * globals * list event :=
  match m g with
  | (Val _, g', t) => (Returned Completed, g', t)
  | (Stop o, g', t) => (o, g', t)
  end.

Definition outcomeOf (r : outcome * globals * list event) : outcome :=
  fst (fst r).
Definition globalsOf (r : outcome * globals * list event) : globals :=
  snd (fst r).
Definition traceOf (r : outcome * globals * list event) : list event :=
  snd r.

(** ** Sequences of calls *)

(** One call of [logf]: the world it meets, its severity and its rendered
    text. *)
Record invocation := mkInvocation {
  inWorld : world;
  inSeverity : Severity;
  inText : gostring
}.

Definition invoke (c : invocation) : M unit :=
  logf (inWorld c) (inSeverity c) (inText c).

(** A process that makes the calls [cs] one after the other, starting with
    the globals [g]: the effects of the whole run, the final globals, and
    how the process ended ([None] while it is still running). A call that
    exits or panics ends the process: the package recovers from no panic. *)
Fixpoint run (cs : list invocation) (g : globals)
  : list event * globals * option outcome :=
  match cs with
  | [] => ([], g, None)
  | c :: rest =>
    match call (invoke c) g with
    | (Returned _, g', t) =>
      let '(t', g'', o) := run rest g' in (t ++ t', g'', o)
    | (o, g', t) => (t, g', Some o)
    end
  end.

(** ** Vocabulary of the statements *)

(** The message of a call, as [logf] trims it. *)
Definition trimmed (text : gostring) : gostring :=
  strings.TrimSpace (strings.TrimSuffix text LF).

(** A line written to a file or a write to the system logger. *)
Definition isWrite (e : event) : bool :=
  match e with
  | WriteLevel _ _ _ | WriteString _ _ => true
  | _ => false
  end.

Definition isOpen (e : event) : bool :=
  match e with CallOpenFile _ _ _ => true | _ => false end.

Definition isNewLogger (e : event) : bool :=
  match e with CallNewLogger _ _ _ => true | _ => false end.

Definition isMutex (e : event) : bool :=
  match e with Lock | Unlock => true | _ => false end.

(** The effects of a trace on the destinations, the mutex left aside. *)
Definition io (t : list event) : list event :=
  filter (fun e => negb (isMutex e)) t.

Definition count (p : event -> bool) (t : list event) : nat :=
  length (filter p t).

(** Every write of the trace goes to the file [f]. *)
Definition writesOnlyTo (f : File) (t : list event) : Prop :=
  forall e, In e t -> isWrite e = true -> exists s, e = WriteString f s.

(** Every write of the trace goes to the system logger [l]. *)
Definition writesOnlyToSyslog (l : Syslogger) (t : list event) : Prop :=
  forall e, In e t -> isWrite e = true -> exists p b, e = WriteLevel l p b.

(** The flags [logf] opens the log file with. *)
Definition openFlag : Z := Z.lor (Z.lor O_WRONLY O_APPEND) O_CREATE.

(** The operands [logf] gives to the line format. *)
Definition lineArgs (now : Time) (app name message : gostring) : list fmt.arg :=
  [ fmt.Int (year now); fmt.Int (month now); fmt.Int (day now);
    fmt.Int (hour now); fmt.Int (minute now); fmt.Int (second now);
    fmt.String app; fmt.String name; fmt.String message ].

(** The line format of the specification,
    ["[%04d-%02d-%02d %02d:%02d:%02d] [%s] [%s] %s\n"]. *)
Definition specLineFormat : list fmt.directive :=
  [ fmt.Lit (str "["); fmt.Verb_d true (Some 4);
    fmt.Lit (str "-"); fmt.Verb_d true (Some 2);
    fmt.Lit (str "-"); fmt.Verb_d true (Some 2);
    fmt.Lit (str " "); fmt.Verb_d true (Some 2);
    fmt.Lit (str ":"); fmt.Verb_d true (Some 2);
    fmt.Lit (str ":"); fmt.Verb_d true (Some 2);
    fmt.Lit (str "] ["); fmt.Verb_s;
    fmt.Lit (str "] ["); fmt.Verb_s;
    fmt.Lit (str "] "); fmt.Verb_s;
    fmt.Lit LF ].

Definition isUpper (b : byte) : bool := utf8.between 0x41 0x5A (b2z b).

Definition isDigit (b : byte) : bool := utf8.between 0x30 0x39 (b2z b).

(** A base-10 integer, as a string: an optional sign and one or more
    decimal digits. *)
Definition isBase10Integer (s : gostring) : bool :=
  let ds :=
    match s with
    | c :: rest => if Byte.eqb c x2b || Byte.eqb c x2d then rest else s
    | [] => []
    end in
  negb (isNil (hd_error ds)) && forallb isDigit ds.

(** The seven severities the exported functions log at. *)
Definition publicSeverities : list Severity :=
  [ SeverityDebug; SeverityInfo; SeverityNotice; SeverityWarning;
    SeverityError; SeverityCritical; SeverityFatal ].

(** ** Sample worlds and configurations *)

Definition sampleTime : Time := mkTime 2018 3 7 9 5 0.

(** A machine where the system logger answers and [/var/log/app.log] can be
    opened, and nothing else. *)
Definition sampleWorld : world :=
  mkWorld sampleTime
    (fun _ _ _ => inl 77)
    (fun name _ _ =>
       if eqb_gostring name (str "/var/log/app.log") then inl 3
       else inr (str "open: no such file or directory")).

(** [_globals] after a first [Init("myapp", level, "")], with no flag
    defined before it, and the flags [-syslog] and [-logfile]. *)
Definition configured (level : Severity) (syslog : bool) (logfile : gostring)
  : globals :=
  let g := snd (fst (Init (str "myapp") level [] _globals [])) in
  mkGlobals (logLevel g) (Some syslog) (appName g) (syslogFacility g)
            (syslogger g) (Some logfile) (outFd g).

(** The event [e] writes the message of a call: to the system logger the
    message itself with the priority of the severity, to a file the line
    [logf] formats. *)
Definition carries (now : Time) (app : gostring) (severity : Severity)
    (message : gostring) (e : event) : Prop :=
  match e with
  | WriteLevel _ p b =>
    nth_error severityToSyslogPriority (Z.to_nat severity) = Some p
    /\ b = message
  | WriteString _ s =>
    exists name,
      nth_error SeverityName (Z.to_nat severity) = Some name
      /\ s = fmt.Sprintf lineFormat (lineArgs now app name message)
  | _ => False
  end.

(** The last effect of a trace, the [Sync] that follows a write to the log
    file left aside. *)
Definition lastEffect (t : list event) : option event :=
  match rev t with
  | Sync _ :: e :: _ => Some e
  | e :: _ => Some e
  | [] => None
  end.

Definition isPanic (o : outcome) : bool :=
  match o with Panicked _ => true | _ => false end.

Definition traceOfRun (r : list event * globals * option outcome) : list event :=
  fst (fst r).
Definition globalsOfRun (r : list event * globals * option outcome) : globals :=
  snd (fst r).

(** How many times [logf] can still open the log file, and construct the
    system-logger client, given the handles the globals hold. *)
Definition opensLeft (g : globals) : nat := if isNil (outFd g) then 1 else 0.
Definition loggersLeft (g : globals) : nat :=
  if isNil (syslogger g) then 1 else 0.

(** ** More of the package, and more vocabulary *)

(** [func (s *Severity) Get() interface{}]: [s.get()], boxed. *)
Definition Severity_Get (s : Severity) : Severity := Severity_get s.

Definition isLock (e : event) : bool :=
  match e with Lock => true | _ => false end.

Definition isUnlock (e : event) : bool :=
  match e with Unlock => true | _ => false end.

Definition isSync (e : event) : bool :=
  match e with Sync _ => true | _ => false end.

(** Every write to an opened file is followed at once by the [Sync] of that
    file. *)
Fixpoint fileWritesSynced (t : list event) : bool :=
  match t with
  | [] => true
  | WriteString (Opened fd) _ :: rest =>
    match rest with
    | Sync (Opened fd') :: _ => (fd =? fd') && fileWritesSynced rest
    | _ => false
    end
  | _ :: rest => fileWritesSynced rest
  end.

(** The white space of ASCII: tab, line feed, vertical tab, form feed,
    carriage return and space. *)
Definition isAsciiSpace (b : byte) : bool :=
  utf8.between 0x09 0x0D (b2z b) || (b2z b =? 0x20).

(** The number a string of decimal digits denotes, read left to right from
    the value [n]. *)
Definition digitsValue (ds : gostring) (n : Z) : Z :=
  fold_left (fun acc c => acc * 10 + (b2z c - 0x30)) ds n.

(** The number a base-10 integer denotes. *)
Definition decimalValue (s : gostring) : Z :=
  match s with
  | [] => 0
  | c :: rest =>
    if Byte.eqb c x2d then - digitsValue rest 0
    else if Byte.eqb c x2b then digitsValue rest 0
    else digitsValue s 0
  end.

(** A clock reading with a four-digit year and fields in their ranges. *)
Definition wallClock (now : Time) : Prop :=
  1000 <= year now <= 9999
  /\ 1 <= month now <= 12 /\ 1 <= day now <= 31
  /\ 0 <= hour now <= 23 /\ 0 <= minute now <= 59 /\ 0 <= second now <= 59.

(** [_globals] after a first [Init], with no flag defined before it, the
    flags left at their defaults. *)
Definition initialized (app : gostring) (level : Severity) (facility : gostring)
  : globals :=
  snd (fst (Init app level facility _globals [])).

(** The end of the trace of a call that wrote its message and then left
    through [os.Exit]: the write is the last effect when it goes to the
    system logger or to standard error; the write to the log file is
    followed by the [Sync] of that file, and by nothing else. In each case
    the write is the one the globals [g'] the call leaves name, it carries
    the message, and no other write or sync comes before it. *)
Definition endsWithTheWrite (now : Time) (app : gostring) (severity : Severity)
    (message : gostring) (g' : globals) (t : list event) : Prop :=
  match syslogger g', outFd g', rev t with
  | Some l, _, WriteLevel l' p b :: before =>
    l' = l /\ carries now app severity message (WriteLevel l' p b)
    /\ count isWrite before = 0%nat /\ count isSync before = 0%nat
  | None, Some f, Sync f2 :: WriteString f1 s :: before =>
    f1 = f /\ f2 = f /\ carries now app severity message (WriteString f1 s)
    /\ count isWrite before = 0%nat /\ count isSync before = 0%nat
  | None, None, WriteString f1 s :: before =>
    f1 = Stderr /\ carries now app severity message (WriteString f1 s)
    /\ count isWrite before = 0%nat /\ count isSync before = 0%nat
  | _, _, _ => False
  end.

(** Where a write goes: to a system-logger client or to a file. *)
Inductive destination :=
| ToSyslog (l : Syslogger)
| ToFile (f : File).

Definition goesTo (d : destination) (e : event) : Prop :=
  match d, e with
  | ToSyslog l, WriteLevel l' _ _ => l' = l
  | ToFile f, WriteString f' _ => f' = f
  | _, _ => False
  end.

(** Every write of the trace goes to the destination [d]. *)
Definition writesTo (d : destination) (t : list event) : Prop :=
  forall e, In e t -> isWrite e = true -> goesTo d e.

(** The globals have made up their destination: the client is there, or
    the system logger is switched off and either the file is open or no
    file is configured (and the destination is standard error). *)
Definition settledOn (d : destination) (g : globals) : Prop :=
  match d with
  | ToSyslog l => syslogger g = Some l
  | ToFile f =>
    syslogger g = None /\ useSyslog g = Some false
    /\ (outFd g = Some f
        \/ (f = Stderr /\ outFd g = None
            /\ (fileName g = None \/ fileName g = Some [])))
  end.

(** A string that starts with a minus sign. *)
Definition hasMinus (s : gostring) : bool :=
  match s with
  | c :: _ => Byte.eqb c x2d
  | [] => false
  end.

(** A string without its sign, if it has one. *)
Definition unsignedPart (s : gostring) : gostring :=
  match s with
  | c :: rest => if Byte.eqb c x2b || Byte.eqb c x2d then rest else s
  | [] => []
  end.

(** The decimal digits a string starts with. *)
Fixpoint leadingDigits (s : gostring) : gostring :=
  match s with
  | c :: rest => if isDigit c then c :: leadingDigits rest else []
  | [] => []
  end.

(** The number the leading digits of a string denote does not fit a
    [uint64]. *)
Definition leadingDigitsOverflow (s : gostring) : bool :=
  strconv.maxUint64 <? digitsValue (leadingDigits s) 0.

(** An optional minus sign, then one or more decimal digits, and nothing
    else. *)
Definition isMinusThenDigits (s : gostring) : bool :=
  let ds :=
    match s with
    | c :: rest => if Byte.eqb c x2d then rest else s
    | [] => []
    end in
  negb (isNil (hd_error ds)) && forallb isDigit ds.

(** A machine like [sampleWorld], but without a system logger to talk
    to. *)
Definition worldWithoutSyslog : world :=
  mkWorld sampleTime
    (fun _ _ _ => inr (str "Unix syslog delivery error"))
    (OpenFile sampleWorld).

(** * Properties *)

(** ** The library models on examples *)

Example TrimSpace_ascii :
  strings.TrimSpace (str "  disk at 91% " ++ [x09; x0a]) = str "disk at 91%".
Proof. vm_compute. reflexivity. Qed.

Example TrimSuffix_once :
  strings.TrimSuffix (str "boom" ++ LF ++ LF) LF = str "boom" ++ LF.
Proof. vm_compute. reflexivity. Qed.

(** U+00A0 (C2 A0) and U+2003 (E2 80 83) are white space, a lone C2 is not. *)
Example TrimSpace_unicode :
  strings.TrimSpace [xc2; xa0; x61; xc2; xe2; x80; x83] = [x61; xc2].
Proof. vm_compute. reflexivity. Qed.

Example FormatInt_neg : strconv.FormatInt (-2147483648) = str "-2147483648".
Proof. vm_compute. reflexivity. Qed.

Example Atoi_ok : strconv.Atoi (str "-42") = (-42, None).
Proof. vm_compute. reflexivity. Qed.

Example Atoi_syntax : strconv.Atoi (str "4x2") = (0, Some strconv.ErrSyntax).
Proof. vm_compute. reflexivity. Qed.

Example Atoi_range :
  strconv.Atoi (str "9223372036854775808")
  = (9223372036854775807, Some strconv.ErrRange).
Proof. vm_compute. reflexivity. Qed.

Example Atoi_range_neg :
  strconv.Atoi (str "-9223372036854775809")
  = (-9223372036854775808, Some strconv.ErrRange).
Proof. vm_compute. reflexivity. Qed.

Example Atoi_minint :
  strconv.Atoi (str "-9223372036854775808") = (-9223372036854775808, None).
Proof. vm_compute. reflexivity. Qed.

Example fmtInteger_02d : fmt.fmtInteger true (Some 2) 7 = str "07".
Proof. vm_compute. reflexivity. Qed.

Example fmtInteger_04d_neg : fmt.fmtInteger true (Some 4) (-5) = str "-005".
Proof. vm_compute. reflexivity. Qed.

Example fmtInteger_d : fmt.fmtInteger false None 2018 = str "2018".
Proof. vm_compute. reflexivity. Qed.

Example parseFormat_example :
  fmt.parseFormat fmt.Text (str "%d%% of %s (%04d)")
  = Some [fmt.Verb_d false None; fmt.Lit (str "% of "); fmt.Verb_s;
          fmt.Lit (str " ("); fmt.Verb_d true (Some 4); fmt.Lit (str ")")].
Proof. vm_compute. reflexivity. Qed.

(** The two format strings, read by [fmt.parseFormat]. *)
Example lineFormat_parsed :
  fmt.parseFormat fmt.Text
    (str "[%d-%02d-%02d %02d:%02d:%02d] [%s] [%s] %s" ++ LF)
  = Some lineFormat.
Proof. vm_compute. reflexivity. Qed.

Example specLineFormat_parsed :
  fmt.parseFormat fmt.Text
    (str "[%04d-%02d-%02d %02d:%02d:%02d] [%s] [%s] %s" ++ LF)
  = Some specLineFormat.
Proof. vm_compute. reflexivity. Qed.

Example usageFormat_parsed :
  fmt.parseFormat fmt.Text (str "Log level (%d-%d)") = Some usageFormat.
Proof. vm_compute. reflexivity. Qed.

(** ** Package strings: the fuel of [TrimSpace] *)

Lemma DecodeRuneInString_size s :
  s <> [] -> (1 <= snd (utf8.DecodeRuneInString s))%nat.
Proof.
  intro N. unfold utf8.DecodeRuneInString.
  destruct s as [| b0 t]; [congruence |].
  cbv zeta.
  repeat match goal with
         | |- context [match ?x with _ => _ end] => destruct x
         end; cbn; lia.
Qed.

Lemma scanStart_pos l : forall k, (2 <= k)%nat -> (1 <= utf8.scanStart l k)%nat.
Proof.
  induction l as [| c l IH]; intros k K; cbn.
  - lia.
  - destruct (utf8.RuneStart c); [lia | apply IH; lia].
Qed.

Lemma DecodeLastRuneInString_size s :
  s <> [] -> (1 <= snd (utf8.DecodeLastRuneInString s))%nat.
Proof.
  intro N. unfold utf8.DecodeLastRuneInString.
  destruct (rev s) as [| b before] eqn:R.
  - apply (f_equal (@rev byte)) in R. rewrite rev_involutive in R.
    cbn in R. congruence.
  - destruct (b2z b <? utf8.RuneSelf); [cbn; lia |].
    cbv zeta.
    pose proof (scanStart_pos (firstn (utf8.UTFMax - 1) before) 2
                  ltac:(lia)) as K.
    destruct (utf8.DecodeRuneInString _) as [r size].
    destruct (Nat.eqb size _) eqn:Q; cbn; [| lia].
    apply Nat.eqb_eq in Q. lia.
Qed.

(** [length s] rounds are enough for [TrimLeftFunc]: more fuel changes
    nothing. *)
Lemma trimLeft_fuel f n : forall m s,
  (length s <= n)%nat -> (length s <= m)%nat ->
  strings.trimLeft n f s = strings.trimLeft m f s.
Proof.
  induction n as [| n IH]; intros m s Ln Lm.
  - destruct s; [| cbn in Ln; lia]. destruct m; reflexivity.
  - destruct m as [| m].
    + destruct s; [reflexivity | cbn in Lm; lia].
    + cbn [strings.trimLeft]. destruct s as [| c t]; [reflexivity |].
      pose proof (DecodeRuneInString_size (c :: t) ltac:(discriminate)) as S.
      destruct (utf8.DecodeRuneInString (c :: t)) as [r size]. cbn [snd] in S.
      destruct (f r); [| reflexivity].
      pose proof (length_skipn size (c :: t)) as K.
      apply IH; cbn [length] in *; lia.
Qed.

Lemma trimRight_fuel f n : forall m s,
  (length s <= n)%nat -> (length s <= m)%nat ->
  strings.trimRight n f s = strings.trimRight m f s.
Proof.
  induction n as [| n IH]; intros m s Ln Lm.
  - destruct s; [| cbn in Ln; lia]. destruct m; reflexivity.
  - destruct m as [| m].
    + destruct s; [reflexivity | cbn in Lm; lia].
    + cbn [strings.trimRight]. destruct s as [| c t]; [reflexivity |].
      pose proof (DecodeLastRuneInString_size (c :: t) ltac:(discriminate))
        as S.
      destruct (utf8.DecodeLastRuneInString (c :: t)) as [r size].
      cbn [snd] in S.
      destruct (f r); [| reflexivity].
      pose proof (length_firstn (length (c :: t) - size) (c :: t)) as K.
      apply IH; cbn [length] in *; lia.
Qed.

(** ** Package strconv: decimal strings *)

Lemma formatBits_grows n u a :
  (length a < length (strconv.formatBits (S n) u a))%nat.
Proof.
  revert u a. induction n as [| n IH]; intros u a.
  - cbn. destruct (10 <=? u); cbn; lia.
  - change (strconv.formatBits (S (S n)) u a)
      with (if 10 <=? u
            then strconv.formatBits (S n) (u / 10)
                   (strconv.digit (u - u / 10 * 10) :: a)
            else strconv.digit u :: a).
    destruct (10 <=? u).
    + specialize (IH (u / 10) (strconv.digit (u - u / 10 * 10) :: a)).
      cbn [length] in IH. lia.
    + cbn. lia.
Qed.

Lemma digits10_of_four_digits y :
  1000 <= y -> 4 <= len (strconv.digits10 y).
Proof.
  intro H. unfold strconv.digits10, len.
  assert (H1 : (10 <=? y) = true) by (apply Z.leb_le; lia).
  assert (H2 : (10 <=? y / 10) = true).
  { apply Z.leb_le. apply Z.div_le_lower_bound; lia. }
  assert (H3 : (10 <=? y / 10 / 10) = true).
  { apply Z.leb_le. apply Z.div_le_lower_bound; [lia |].
    apply Z.div_le_lower_bound; lia. }
  change (strconv.formatBits 20 y [])
    with (if 10 <=? y
          then if 10 <=? y / 10
               then if 10 <=? y / 10 / 10
                    then strconv.formatBits 17 (y / 10 / 10 / 10)
                           [ strconv.digit (y / 10 / 10 - y / 10 / 10 / 10 * 10);
                             strconv.digit (y / 10 - y / 10 / 10 * 10);
                             strconv.digit (y - y / 10 * 10) ]
                    else [ strconv.digit (y / 10 / 10);
                           strconv.digit (y / 10 - y / 10 / 10 * 10);
                           strconv.digit (y - y / 10 * 10) ]
               else [ strconv.digit (y / 10); strconv.digit (y - y / 10 * 10) ]
          else [ strconv.digit y ]).
  rewrite H1, H2, H3.
  match goal with
  | |- context [strconv.formatBits 17 ?u ?a] =>
    pose proof (formatBits_grows 16 u a) as G
  end.
  cbn [length] in G. lia.
Qed.

Lemma digit_value d : 0 <= d <= 9 -> b2z (strconv.digit d) = 0x30 + d.
Proof.
  intro H.
  assert (C : d = 0 \/ d = 1 \/ d = 2 \/ d = 3 \/ d = 4 \/ d = 5 \/ d = 6
              \/ d = 7 \/ d = 8 \/ d = 9) by lia.
  repeat (destruct C as [-> | C]; [reflexivity |]). subst d. reflexivity.
Qed.

Lemma formatBits_acc n : forall u a,
  strconv.formatBits n u a = strconv.formatBits n u [] ++ a.
Proof.
  induction n as [| n IH]; intros u a; cbn [strconv.formatBits].
  - reflexivity.
  - destruct (10 <=? u); [| reflexivity].
    rewrite (IH _ (_ :: a)), (IH _ [_]), <- app_assoc. reflexivity.
Qed.

Lemma parseDigits_app x : forall y n,
  strconv.parseDigits (x ++ y) n
  = match strconv.parseDigits x n with
    | (m, None) => strconv.parseDigits y m
    | r => r
    end.
Proof.
  induction x as [| c x IH]; intros y n; cbn [app strconv.parseDigits].
  - reflexivity.
  - destruct (utf8.between 48 57 (b2z c)); [| reflexivity].
    cbv zeta.
    destruct (strconv.maxUint64 / 10 + 1 <=? n); [reflexivity |].
    destruct ((_ <? _) || (_ <? _)); [reflexivity |]. apply IH.
Qed.

Lemma cutoff_value : strconv.maxUint64 / 10 + 1 = 1844674407370955162.
Proof. reflexivity. Qed.

Lemma maxUint64_value : strconv.maxUint64 = 18446744073709551615.
Proof. reflexivity. Qed.

(** Reading one more decimal digit [d] after the value [n]. *)
Lemma parseDigits_digit d n rest :
  0 <= d <= 9 -> 0 <= n -> n * 10 + d <= strconv.maxUint64 ->
  strconv.parseDigits (strconv.digit d :: rest) n
  = strconv.parseDigits rest (n * 10 + d).
Proof.
  intros D N M. cbn [strconv.parseDigits]. rewrite (digit_value d D).
  rewrite maxUint64_value in M.
  replace (utf8.between 48 57 (48 + d)) with true
    by (unfold utf8.between; symmetry; apply andb_true_iff; split;
        apply Z.leb_le; lia).
  cbv zeta. rewrite cutoff_value, maxUint64_value.
  replace (1844674407370955162 <=? n) with false
    by (symmetry; apply Z.leb_gt; lia).
  replace (48 + d - 48) with d by lia.
  rewrite (Z.mod_small (n * 10 + d)) by lia.
  replace (n * 10 + d <? n * 10) with false by (symmetry; apply Z.ltb_ge; lia).
  replace (18446744073709551615 <? n * 10 + d) with false
    by (symmetry; apply Z.ltb_ge; lia).
  reflexivity.
Qed.

Lemma parse_formatBits n : forall u,
  0 <= u <= strconv.maxUint64 -> u < 10 ^ Z.of_nat n ->
  strconv.parseDigits (strconv.formatBits n u []) 0 = (u, None).
Proof.
  induction n as [| n IH]; intros u R B.
  - cbn in *. f_equal. lia.
  - cbn [strconv.formatBits]. rewrite maxUint64_value in R.
    destruct (10 <=? u) eqn:T.
    + apply Z.leb_le in T. rewrite formatBits_acc, parseDigits_app.
      rewrite IH.
      * rewrite parseDigits_digit; rewrite ?maxUint64_value.
        -- cbn [strconv.parseDigits]. f_equal. lia.
        -- pose proof (Z.mod_pos_bound u 10 ltac:(lia)) as P.
           rewrite Z.mod_eq in P by lia. lia.
        -- apply Z.div_pos; lia.
        -- pose proof (Z.mod_pos_bound u 10 ltac:(lia)) as P.
           rewrite Z.mod_eq in P by lia. lia.
      * rewrite maxUint64_value. split; [apply Z.div_pos; lia |].
        apply Z.div_le_upper_bound; lia.
      * apply Z.div_lt_upper_bound; [lia |].
        rewrite Nat2Z.inj_succ, Z.pow_succ_r in B by lia. exact B.
    + apply Z.leb_gt in T.
      rewrite parseDigits_digit; rewrite ?maxUint64_value; try lia.
      cbn [strconv.parseDigits]. f_equal.
Qed.

Lemma ParseUint_digits10 u :
  0 <= u <= strconv.maxUint64 ->
  strconv.ParseUint (strconv.digits10 u) = (u, None).
Proof.
  intro R. unfold strconv.ParseUint, strconv.digits10.
  pose proof (formatBits_grows 19 u []) as G.
  destruct (strconv.formatBits 20 u []) as [| c s] eqn:F;
    [cbn in G; lia |].
  rewrite <- F. apply parse_formatBits; [exact R |].
  rewrite maxUint64_value in R.
  assert (P : 10 ^ Z.of_nat 20 = 100000000000000000000)
    by (vm_compute; reflexivity).
  rewrite P. lia.
Qed.

(** The first byte of a decimal rendering is a digit, not a sign. *)
Lemma digits10_head u c s :
  0 <= u <= strconv.maxUint64 ->
  strconv.digits10 u = c :: s ->
  Byte.eqb c x2b = false /\ Byte.eqb c x2d = false.
Proof.
  intros R F. pose proof (ParseUint_digits10 u R) as P.
  rewrite F in P. cbn [strconv.ParseUint strconv.parseDigits] in P.
  destruct (utf8.between 48 57 (b2z c)) eqn:D; [| discriminate P].
  split.
  - destruct (Byte.eqb c x2b) eqn:Q; [| reflexivity].
    apply Byte.byte_dec_bl in Q. subst c. discriminate D.
  - destruct (Byte.eqb c x2d) eqn:Q; [| reflexivity].
    apply Byte.byte_dec_bl in Q. subst c. discriminate D.
Qed.

(** Parsing what [FormatInt] printed gives the number back, for every
    [int64]. *)
Lemma Atoi_FormatInt i :
  - 2 ^ 63 <= i < 2 ^ 63 -> strconv.Atoi (strconv.FormatInt i) = (i, None).
Proof.
  intro R. unfold strconv.Atoi, strconv.FormatInt, strconv.ParseInt.
  assert (C : 2 ^ (strconv.intSize - 1) = 9223372036854775808) by reflexivity.
  assert (P : 2 ^ 63 = 9223372036854775808) by reflexivity.
  rewrite P in R. rewrite C.
  destruct (i <? 0) eqn:S.
  - apply Z.ltb_lt in S.
    replace (Byte.eqb x2d x2d) with true by reflexivity.
    rewrite orb_true_r, ParseUint_digits10 by (rewrite maxUint64_value; lia).
    cbn [negb andb].
    replace (9223372036854775808 <? - i) with false
      by (symmetry; apply Z.ltb_ge; lia).
    f_equal. lia.
  - apply Z.ltb_ge in S.
    assert (U : 0 <= i <= strconv.maxUint64)
      by (rewrite maxUint64_value; lia).
    destruct (strconv.digits10 i) as [| c s] eqn:F.
    + pose proof (ParseUint_digits10 i U) as Q. rewrite F in Q.
      discriminate Q.
    + destruct (digits10_head i c s U F) as [-> ->]. cbn [orb negb andb].
      rewrite <- F, ParseUint_digits10 by exact U.
      replace (9223372036854775808 <=? i) with false
        by (symmetry; apply Z.leb_gt; lia).
      reflexivity.
Qed.

Lemma parseDigits_malformed s : forall n,
  forallb isDigit s = false ->
  strconv.parseDigits s n = (0, Some strconv.ErrSyntax)
  \/ strconv.parseDigits s n = (strconv.maxUint64, Some strconv.ErrRange).
Proof.
  induction s as [| c s IH]; intros n F; [discriminate F |].
  cbn [forallb] in F. cbn [strconv.parseDigits].
  unfold isDigit in F.
  destruct (utf8.between 48 57 (b2z c)); [| left; reflexivity].
  cbn [andb] in F. cbv zeta.
  destruct (strconv.maxUint64 / 10 + 1 <=? n); [right; reflexivity |].
  destruct ((_ <? _) || (_ <? _)); [right; reflexivity |].
  apply IH. exact F.
Qed.

Lemma pow10_mono (j k : nat) : (j <= k)%nat -> 10 ^ Z.of_nat j <= 10 ^ Z.of_nat k.
Proof. intro H. apply Z.pow_le_mono_r; lia. Qed.

(** Up to 19 digits never overflow a [uint64]. *)
Lemma parseDigits_short s : forall n (k : nat),
  0 <= n < 10 ^ Z.of_nat k ->
  (length s + k <= 19)%nat ->
  snd (strconv.parseDigits s n) <> Some strconv.ErrRange.
Proof.
  induction s as [| c s IH]; intros n k N L; cbn [strconv.parseDigits].
  - discriminate.
  - unfold utf8.between.
    destruct (48 <=? b2z c) eqn:D1; [| discriminate].
    destruct (b2z c <=? 57) eqn:D2; [| discriminate].
    cbn [andb]. cbv zeta. rewrite cutoff_value, maxUint64_value.
    apply Z.leb_le in D1. apply Z.leb_le in D2. cbn [length] in L.
    assert (P18 : 10 ^ Z.of_nat 18 = 1000000000000000000)
      by (vm_compute; reflexivity).
    pose proof (pow10_mono k 18 ltac:(lia)) as M. rewrite P18 in M.
    replace (1844674407370955162 <=? n) with false
      by (symmetry; apply Z.leb_gt; lia).
    rewrite (Z.mod_small (n * 10 + (b2z c - 48))) by lia.
    replace (n * 10 + (b2z c - 48) <? n * 10) with false
      by (symmetry; apply Z.ltb_ge; lia).
    replace (18446744073709551615 <? n * 10 + (b2z c - 48)) with false
      by (symmetry; apply Z.ltb_ge; lia).
    cbn [orb]. apply (IH _ (S k)); [| lia].
    rewrite Nat2Z.inj_succ, Z.pow_succ_r by lia. lia.
Qed.

Lemma ParseUint_malformed s :
  (negb (isNil (hd_error s)) && forallb isDigit s) = false ->
  strconv.ParseUint s = (0, Some strconv.ErrSyntax)
  \/ strconv.ParseUint s = (strconv.maxUint64, Some strconv.ErrRange).
Proof.
  destruct s as [| c s]; [left; reflexivity |].
  cbn [hd_error isNil negb andb]. intro F.
  unfold strconv.ParseUint. apply parseDigits_malformed. exact F.
Qed.

Lemma ParseUint_short s :
  (length s <= 19)%nat ->
  snd (strconv.ParseUint s) <> Some strconv.ErrRange.
Proof.
  intro L. destruct s as [| c s]; [discriminate |].
  unfold strconv.ParseUint. apply (parseDigits_short _ 0 0%nat); [cbn; lia | lia].
Qed.

(** What [Atoi] makes of a string that is not a base-10 integer. *)
Lemma Atoi_malformed strVal :
  isBase10Integer strVal = false ->
  strconv.Atoi strVal = (0, Some strconv.ErrSyntax)
  \/ (strconv.Atoi strVal = (2 ^ 63 - 1, Some strconv.ErrRange)
      /\ (19 < length strVal)%nat)
  \/ (strconv.Atoi strVal = (- 2 ^ 63, Some strconv.ErrRange)
      /\ (19 < length strVal)%nat).
Proof.
  unfold isBase10Integer, strconv.Atoi, strconv.ParseInt.
  destruct strVal as [| c rest]; [left; reflexivity |].
  set (ds := if Byte.eqb c x2b || Byte.eqb c x2d then rest else c :: rest).
  intro F.
  assert (L : (length ds <= length (c :: rest))%nat).
  { subst ds. destruct (Byte.eqb c x2b || Byte.eqb c x2d); cbn; lia. }
  pose proof (ParseUint_malformed ds F) as U.
  pose proof (ParseUint_short ds) as S.
  destruct U as [U | U]; rewrite U in *; [left; reflexivity |].
  assert (G : (19 < length (c :: rest))%nat).
  { destruct (Nat.le_gt_cases (length ds) 19) as [K | K]; [| lia].
    elim (S K). reflexivity. }
  right. destruct (Byte.eqb c x2d); [right | left]; split; try exact G;
    reflexivity.
Qed.

Lemma digitsValue_grows l : forall m,
  forallb isDigit l = true -> 0 <= m -> m <= digitsValue l m.
Proof.
  induction l as [| c l IH]; intros m D M; cbn [digitsValue fold_left].
  - lia.
  - cbn [forallb] in D. apply andb_true_iff in D. destruct D as [Dc Dl].
    unfold isDigit, utf8.between in Dc. apply andb_true_iff in Dc.
    destruct Dc as [D1 D2]. apply Z.leb_le in D1. apply Z.leb_le in D2.
    specialize (IH (m * 10 + (b2z c - 48)) Dl ltac:(lia)).
    unfold digitsValue in IH. lia.
Qed.

Lemma leadingDigits_are_digits s : forallb isDigit (leadingDigits s) = true.
Proof.
  induction s as [| c s IH]; cbn [leadingDigits]; [reflexivity |].
  destruct (isDigit c) eqn:D; [| reflexivity].
  cbn [forallb]. rewrite D, IH. reflexivity.
Qed.

(** What [ParseUint] does, in terms of the number the digits denote: a
    range error as soon as the leading digits pass the largest [uint64],
    else the value of a string of digits, else a syntax error. *)
Lemma parseDigits_cases s : forall n,
  0 <= n <= strconv.maxUint64 ->
  strconv.parseDigits s n
  = if strconv.maxUint64 <? digitsValue (leadingDigits s) n
    then (strconv.maxUint64, Some strconv.ErrRange)
    else if forallb isDigit s then (digitsValue s n, None)
         else (0, Some strconv.ErrSyntax).
Proof.
  induction s as [| c s IH]; intros n N.
  - cbn [strconv.parseDigits leadingDigits forallb digitsValue fold_left].
    replace (strconv.maxUint64 <? n) with false
      by (symmetry; apply Z.ltb_ge; lia).
    reflexivity.
  - cbn [strconv.parseDigits leadingDigits forallb].
    change (utf8.between 48 57 (b2z c)) with (isDigit c).
    destruct (isDigit c) eqn:D.
    + cbv zeta. cbn [andb digitsValue fold_left].
      change (fold_left (fun acc c0 => acc * 10 + (b2z c0 - 48))
                        (leadingDigits s) (n * 10 + (b2z c - 48)))
        with (digitsValue (leadingDigits s) (n * 10 + (b2z c - 48))).
      change (fold_left (fun acc c0 => acc * 10 + (b2z c0 - 48))
                        s (n * 10 + (b2z c - 48)))
        with (digitsValue s (n * 10 + (b2z c - 48))).
      unfold isDigit, utf8.between in D. apply andb_true_iff in D.
      destruct D as [D1 D2]. apply Z.leb_le in D1. apply Z.leb_le in D2.
      pose proof (digitsValue_grows (leadingDigits s)
                    (n * 10 + (b2z c - 48)) (leadingDigits_are_digits s)
                    ltac:(lia)) as G.
      rewrite cutoff_value. rewrite maxUint64_value in *.
      assert (P : 2 ^ 64 = 18446744073709551616) by reflexivity. rewrite P.
      destruct (Z.le_gt_cases (n * 10 + (b2z c - 48)) 18446744073709551615)
        as [Fit | Over].
      * replace (1844674407370955162 <=? n) with false
          by (symmetry; apply Z.leb_gt; lia).
        rewrite (Z.mod_small (n * 10 + (b2z c - 48))) by lia.
        replace (n * 10 + (b2z c - 48) <? n * 10) with false
          by (symmetry; apply Z.ltb_ge; lia).
        replace (18446744073709551615 <? n * 10 + (b2z c - 48)) with false
          by (symmetry; apply Z.ltb_ge; lia).
        cbn [orb]. rewrite IH by lia. reflexivity.
      * replace (18446744073709551615
                 <? digitsValue (leadingDigits s) (n * 10 + (b2z c - 48)))
          with true by (symmetry; apply Z.ltb_lt; lia).
        destruct (1844674407370955162 <=? n) eqn:C; [reflexivity |].
        apply Z.leb_gt in C.
        replace ((n * 10 + (b2z c - 48)) mod 18446744073709551616)
          with (n * 10 + (b2z c - 48) - 18446744073709551616).
        -- replace (n * 10 + (b2z c - 48) - 18446744073709551616 <? n * 10)
             with true by (symmetry; apply Z.ltb_lt; lia).
           reflexivity.
        -- apply Z.mod_unique with (q := 1); lia.
    + cbn [digitsValue fold_left].
      replace (strconv.maxUint64 <? n) with false
        by (symmetry; apply Z.ltb_ge; lia).
      reflexivity.
Qed.

(** What [Atoi] returns for a string that is not a base-10 integer. *)
Lemma Atoi_malformed_cases strVal :
  isBase10Integer strVal = false ->
  strconv.Atoi strVal
  = if leadingDigitsOverflow (unsignedPart strVal)
    then (if hasMinus strVal then - 2 ^ 63 else 2 ^ 63 - 1,
          Some strconv.ErrRange)
    else (0, Some strconv.ErrSyntax).
Proof.
  unfold isBase10Integer, strconv.Atoi, strconv.ParseInt, unsignedPart,
    hasMinus, leadingDigitsOverflow.
  destruct strVal as [| c rest]; [reflexivity |].
  set (ds := if Byte.eqb c x2b || Byte.eqb c x2d then rest else c :: rest).
  intro F.
  assert (U : strconv.ParseUint ds
              = if strconv.maxUint64 <? digitsValue (leadingDigits ds) 0
                then (strconv.maxUint64, Some strconv.ErrRange)
                else (0, Some strconv.ErrSyntax)).
  { destruct ds as [| d ds']; [reflexivity |].
    cbn [hd_error isNil negb andb] in F.
    unfold strconv.ParseUint.
    rewrite parseDigits_cases by (rewrite maxUint64_value; lia).
    rewrite F. reflexivity. }
  rewrite U. subst ds.
  destruct (strconv.maxUint64 <? digitsValue (leadingDigits _) 0);
    [| reflexivity].
  destruct (Byte.eqb c x2d); reflexivity.
Qed.

Lemma to_int32_small s : - 2 ^ 31 <= s < 2 ^ 31 -> to_int32 s = s.
Proof.
  intro R. unfold to_int32.
  assert (P : 2 ^ 31 = 2147483648) by reflexivity.
  assert (Q : 2 ^ 32 = 4294967296) by reflexivity.
  rewrite P in *. rewrite Q. rewrite Z.mod_small by lia. lia.
Qed.

(** ** Package fmt: the year *)

(** From the year 1000 on, [%d] and [%04d] print a year alike. *)
Lemma fmtInteger_year y :
  1000 <= y -> fmt.fmtInteger true (Some 4) y = fmt.fmtInteger false None y.
Proof.
  intro H. pose proof (digits10_of_four_digits y H) as L.
  unfold fmt.fmtInteger, fmt.pad.
  assert (N : (y <? 0) = false) by (apply Z.ltb_ge; lia). rewrite N.
  replace (Z.to_nat (4 - len (strconv.digits10 y))) with 0%nat by lia.
  replace (Z.to_nat (0 - len (strconv.digits10 y))) with 0%nat by lia.
  cbn [repeat app].
  replace (Z.to_nat (4 - len (strconv.digits10 y))) with 0%nat by lia.
  reflexivity.
Qed.

Lemma lineFormat_agrees_with_spec now app name message :
  1000 <= year now ->
  fmt.Sprintf specLineFormat (lineArgs now app name message)
  = fmt.Sprintf lineFormat (lineArgs now app name message).
Proof.
  intro H. unfold fmt.Sprintf, specLineFormat, lineFormat, lineArgs.
  cbn [fmt.doPrintf]. rewrite (fmtInteger_year _ H). reflexivity.
Qed.

(** ** The examples of the specification *)

Example Init_example :
  Init (str "myapp") SeverityWarning [] _globals []
  = (InitReturned None,
     mkGlobals SeverityWarning (Some false) (str "myapp") (str "DAEMON")
               None (Some []) None,
     [ mkFlag (str "syslog") (str "false")
              (str "Send logs to the local system logger");
       mkFlag (str "logfile") [] (str "Write logs to file");
       mkFlag (str "loglevel") (str "3") (str "Log level (0-6)") ]).
Proof. vm_compute. reflexivity. Qed.

(** A second [Init] stores the new threshold, name and facility and then
    panics in [flag.Bool]; the flag pointers and the flags stay. *)
Example Init_twice :
  let '(_, g, fs) := Init (str "myapp") SeverityWarning [] _globals [] in
  Init (str "other") SeverityDebug (str "LOCAL0") g fs
  = (FlagRedefined (str "syslog"),
     mkGlobals SeverityDebug (Some false) (str "other") (str "LOCAL0")
               None (Some []) None,
     fs).
Proof. vm_compute. reflexivity. Qed.

Example Infof_below_warning :
  call (Infof sampleWorld (str "starting")) (configured SeverityWarning false [])
  = (Returned Filtered, configured SeverityWarning false [], []).
Proof. vm_compute. reflexivity. Qed.

Example Warnf_at_warning :
  call (Warnf sampleWorld (str "disk at 91%")) (configured SeverityWarning false [])
  = (Returned Completed, configured SeverityWarning false [],
     [ Lock;
       WriteString Stderr
         (str "[2018-03-07 09:05:00] [myapp] [WARNING] disk at 91%" ++ LF);
       Unlock ]).
Proof. vm_compute. reflexivity. Qed.

Example Fatal_empty :
  call (Fatal sampleWorld []) (configured SeverityDebug false [])
  = (Returned Discarded, configured SeverityDebug false [], []).
Proof. vm_compute. reflexivity. Qed.

Example Fatal_boom :
  call (Fatal sampleWorld (str "boom")) (configured SeverityDebug false [])
  = (Exited 255, configured SeverityDebug false [],
     [ Lock;
       WriteString Stderr (str "[2018-03-07 09:05:00] [myapp] [FATAL] boom" ++ LF) ]).
Proof. vm_compute. reflexivity. Qed.

Example Fatal_boom_to_the_log_file :
  call (Fatal sampleWorld (str "boom"))
       (configured SeverityDebug false (str "/var/log/app.log"))
  = (Exited 255,
     set_outFd (Opened 3)
       (configured SeverityDebug false (str "/var/log/app.log")),
     [ Lock;
       CallOpenFile (str "/var/log/app.log") openFlag perm0644;
       WriteString (Opened 3)
         (str "[2018-03-07 09:05:00] [myapp] [FATAL] boom" ++ LF);
       Sync (Opened 3) ]).
Proof. vm_compute. reflexivity. Qed.

Example Set_malformed :
  Severity_Set SeverityLast (str "verbose") = (None, SeverityDebug).
Proof. vm_compute. reflexivity. Qed.

(** A string of digits too long for an [int] is a range error: [Atoi]
    returns the largest [int], whose low 32 bits are [-1]. *)
Example Set_out_of_range :
  Severity_Set SeverityLast (str "99999999999999999999") = (None, -1).
Proof. vm_compute. reflexivity. Qed.

(** With a minus sign the overflow of the leading digits leaves zero: the
    smallest [int] has no low bits. *)
Example Set_malformed_negative_overflow :
  Severity_Set SeverityLast (str "-99999999999999999999x") = (None, 0).
Proof. vm_compute. reflexivity. Qed.

(** ** Running [logf] symbolically *)

#[local] Opaque fmt.Sprintf strings.TrimSpace strings.TrimSuffix.

Lemma len_nil_iff (s : gostring) : (len s <=? 0) = true <-> s = [].
Proof.
  unfold len. destruct s as [|b s]; split; intro H;
    try reflexivity; discriminate.
Qed.

Lemma len_pos_iff (s : gostring) : (len s <=? 0) = false <-> s <> [].
Proof.
  rewrite <- len_nil_iff. destruct (len s <=? 0); split; congruence.
Qed.

Ltac unfold_logf :=
  unfold invoke, call, logf, defer, bind, get, modify, emit, when, deref, index,
    return_, panic, os_Exit, leave, ret, Severity_get, trimmed in *.

Ltac split_inner :=
  match goal with
  | |- context [match ?x with _ => _ end] =>
    lazymatch x with
    | context [match _ with _ => _ end] => fail
    | _ => destruct x eqn:?
    end
  end.

(** Every path through the body of [logf], once the call is accepted. *)
Ltac accepted_paths H E :=
  apply Z.ltb_ge in H; apply len_pos_iff in E;
  unfold outcomeOf, traceOf, globalsOf, count, lastEffect, carries, lineArgs;
  unfold_logf; rewrite H, E; cbn -[nth_error];
  repeat (split_inner; cbn -[nth_error]).

Ltac all_paths :=
  unfold outcomeOf, traceOf, globalsOf, count, opensLeft, loggersLeft;
  unfold_logf; cbn -[nth_error];
  repeat (split_inner; cbn -[nth_error]).

(** Paths whose conditions contradict each other. *)
Ltac absurd_path :=
  match goal with
  | H : _ && false = true |- _ => rewrite andb_false_r in H; discriminate H
  | H : false && _ = true |- _ => discriminate H
  | H : ?b && _ = true, H' : ?b = false |- _ =>
    rewrite H' in H; discriminate H
  end.

Ltac in_cases H :=
  cbn [In] in H;
  repeat match type of H with
         | _ \/ _ => destruct H as [H | H]
         end;
  try discriminate H; try contradiction.

Lemma logf_filtered w severity text g :
  severity < logLevel g ->
  call (logf w severity text) g = (Returned Filtered, g, []).
Proof.
  intro H. unfold_logf. apply Z.ltb_lt in H. rewrite H. reflexivity.
Qed.

Lemma logf_discarded w severity text g :
  logLevel g <= severity ->
  trimmed text = [] ->
  call (logf w severity text) g = (Returned Discarded, g, []).
Proof.
  intros H E. unfold_logf.
  apply Z.ltb_ge in H. rewrite H.
  apply len_nil_iff in E. rewrite E. reflexivity.
Qed.

Lemma logf_accepted_writes_once w severity text g :
  logLevel g <= severity ->
  trimmed text <> [] ->
  isPanic (outcomeOf (call (logf w severity text) g)) = false ->
  count isWrite (traceOf (call (logf w severity text) g)) = 1%nat.
Proof.
  intros H E. accepted_paths H E; intros NP;
    solve [reflexivity | discriminate NP].
Qed.

Lemma logf_panic_writes_nothing w severity text g :
  isPanic (outcomeOf (call (logf w severity text) g)) = true ->
  count isWrite (traceOf (call (logf w severity text) g)) = 0%nat.
Proof.
  unfold outcomeOf, traceOf, count. unfold_logf. cbn -[nth_error].
  repeat (split_inner; cbn -[nth_error]); intros P;
    solve [reflexivity | discriminate P].
Qed.

Lemma nth_error_in_range {A} (l : list A) (severity : Severity) :
  length l = 7%nat ->
  SeverityDebug <= severity <= SeverityFatal ->
  nth_error l (Z.to_nat severity) <> None.
Proof.
  intros L [H0 H6] N. apply nth_error_None in N.
  unfold SeverityDebug, SeverityFatal in *. lia.
Qed.

Lemma logf_does_not_panic w severity text g use :
  SeverityDebug <= severity <= SeverityFatal ->
  useSyslog g = Some use ->
  (use = true -> syslogger g = None ->
   exists l, NewLogger w LOG_INFO (syslogFacility g) (appName g) = inl l) ->
  (forall path, fileName g = Some path -> path <> [] -> outFd g = None ->
   exists fd, OpenFile w path openFlag perm0644 = inl fd) ->
  isPanic (outcomeOf (call (logf w severity text) g)) = false.
Proof.
  intros R U HN HO.
  pose proof (nth_error_in_range SeverityName severity eq_refl R) as N1.
  pose proof (nth_error_in_range severityToSyslogPriority severity eq_refl R)
    as N2.
  assert (Z0 : (0 <=? severity) = true)
    by (apply Z.leb_le; unfold SeverityDebug in R; lia).
  destruct g as [lvl use' app fac sl fn ofd].
  cbn [useSyslog syslogger syslogFacility appName fileName outFd] in *.
  subst use'. change openFlag with 1089 in HO. change perm0644 with 420 in HO.
  all_paths; try reflexivity; try congruence; exfalso.
  all: repeat match goal with
              | H : _ && _ = true |- _ =>
                apply andb_true_iff in H; destruct H
              end.
  all: repeat match goal with
              | H : isNil ?x = true |- _ =>
                destruct x; [discriminate H | clear H]
              end.
  all: try (subst use; destruct (HN eq_refl eq_refl) as [? ?]; discriminate).
  all: match goal with
       | P : (0 <? len ?p) = true |- _ =>
         destruct (HO p eq_refl) as [? ?];
           [intros ->; discriminate P | reflexivity | congruence]
       end.
Qed.

(** A severity above Fatal, which no exported function passes, never gets
    as far as [os.Exit]: the lookup in the tables panics. *)
Lemma logf_above_fatal_panics w severity text g :
  SeverityFatal < severity ->
  logLevel g <= severity ->
  trimmed text <> [] ->
  isPanic (outcomeOf (call (logf w severity text) g)) = true.
Proof.
  intros F H E.
  assert (N : forall A (l : list A), length l = 7%nat ->
              nth_error l (Z.to_nat severity) = None).
  { intros A l L. apply nth_error_None. rewrite L.
    unfold SeverityFatal in F. lia. }
  accepted_paths H E; try reflexivity.
  all: match goal with
       | H : nth_error _ _ = Some _ |- _ =>
         rewrite N in H by reflexivity; discriminate H
       end.
Qed.

Lemma SeverityName_upper name :
  In name SeverityName -> forallb isUpper name = true.
Proof.
  unfold SeverityName. cbn [In]. intros H.
  repeat (destruct H as [<- | H]; [vm_compute; reflexivity |]). destruct H.
Qed.

(** The lines of a call, as [logf] formats them. *)
Lemma written_line w severity text g f line :
  In (WriteString f line) (traceOf (call (logf w severity text) g)) ->
  exists name,
    nth_error SeverityName (Z.to_nat severity) = Some name
    /\ line = fmt.Sprintf lineFormat
                (lineArgs (Now w) (appName g) name (trimmed text)).
Proof.
  unfold traceOf, lineArgs. unfold_logf. cbn -[nth_error].
  repeat (split_inner; cbn -[nth_error]); intros H; in_cases H.
  all: injection H as <- <-; eexists; split; eauto.
Qed.

(** ** Sequences of calls *)

Lemma count_app p t1 t2 : count p (t1 ++ t2) = (count p t1 + count p t2)%nat.
Proof. unfold count. rewrite filter_app, length_app. reflexivity. Qed.

Lemma run_cons c cs g :
  run (c :: cs) g
  = match call (invoke c) g with
    | (Returned _, g', t) =>
      (t ++ traceOfRun (run cs g'), globalsOfRun (run cs g'), snd (run cs g'))
    | (o, g', t) => (t, g', Some o)
    end.
Proof.
  cbn [run]. destruct (call (invoke c) g) as [[o g'] t].
  destruct o; try reflexivity.
  destruct (run cs g') as [[t' g''] o']. reflexivity.
Qed.

Lemma run_all_filtered g cs :
  Forall (fun c => inSeverity c < logLevel g) cs ->
  run cs g = ([], g, None).
Proof.
  induction 1 as [| c cs L _ IH]; cbn [run].
  - reflexivity.
  - unfold invoke. rewrite logf_filtered by exact L. rewrite IH. reflexivity.
Qed.

Lemma public_functions_filtered_before_Init :
  Forall (fun f => forall w text,
            call (f w text) _globals = (Returned Filtered, _globals, []))
         publicAPI.
Proof.
  unfold publicAPI. repeat constructor; intros w text;
    apply logf_filtered; vm_compute; reflexivity.
Qed.

(** One call opens the log file at most as often as the globals allow, and
    when it returns it has used up what it opened. *)
Lemma call_opens w severity text g :
  let r := call (logf w severity text) g in
  (count isOpen (traceOf r) + opensLeft (globalsOf r) <= opensLeft g)%nat
  \/ ((count isOpen (traceOf r) <= opensLeft g)%nat
      /\ forall p, outcomeOf r <> Returned p).
Proof.
  destruct g as [lvl use app fac sl fn ofd].
  all_paths; try (left; cbn; lia); right; split; try (cbn; lia);
    intros p; discriminate.
Qed.

Lemma call_newLoggers w severity text g :
  let r := call (logf w severity text) g in
  (count isNewLogger (traceOf r) + loggersLeft (globalsOf r)
   <= loggersLeft g)%nat
  \/ ((count isNewLogger (traceOf r) <= loggersLeft g)%nat
      /\ forall p, outcomeOf r <> Returned p).
Proof.
  destruct g as [lvl use app fac sl fn ofd].
  all_paths; try (left; cbn; lia); right; split; try (cbn; lia);
    intros p; discriminate.
Qed.

Lemma run_opens cs : forall g,
  (count isOpen (traceOfRun (run cs g)) <= opensLeft g)%nat.
Proof.
  induction cs as [| c cs IH]; intro g.
  - cbn. lia.
  - rewrite run_cons.
    pose proof (call_opens (inWorld c) (inSeverity c) (inText c) g) as H.
    unfold invoke. cbn zeta in H. unfold outcomeOf, traceOf, globalsOf in H.
    destruct (call (logf (inWorld c) (inSeverity c) (inText c)) g)
      as [[o g'] t]. cbn [fst snd] in H.
    destruct o as [p | code | v]; cbn [traceOfRun fst].
    + rewrite count_app. specialize (IH g').
      destruct H as [H | [_ H]]; [lia | now elim (H p)].
    + destruct H as [H | [H _]]; lia.
    + destruct H as [H | [H _]]; lia.
Qed.

Lemma run_newLoggers cs : forall g,
  (count isNewLogger (traceOfRun (run cs g)) <= loggersLeft g)%nat.
Proof.
  induction cs as [| c cs IH]; intro g.
  - cbn. lia.
  - rewrite run_cons.
    pose proof (call_newLoggers (inWorld c) (inSeverity c) (inText c) g) as H.
    unfold invoke. cbn zeta in H. unfold outcomeOf, traceOf, globalsOf in H.
    destruct (call (logf (inWorld c) (inSeverity c) (inText c)) g)
      as [[o g'] t]. cbn [fst snd] in H.
    destruct o as [p | code | v]; cbn [traceOfRun fst].
    + rewrite count_app. specialize (IH g').
      destruct H as [H | [_ H]]; [lia | now elim (H p)].
    + destruct H as [H | [H _]]; lia.
    + destruct H as [H | [H _]]; lia.
Qed.

(** A handle the globals hold is kept by every call, and the call writes to
    no other file. *)
Lemma call_keeps_outFd w severity text g f :
  outFd g = Some f ->
  let r := call (logf w severity text) g in
  outFd (globalsOf r) = Some f
  /\ forall f' s, In (WriteString f' s) (traceOf r) -> f' = f.
Proof.
  destruct g as [lvl use app fac sl fn ofd]. cbn [outFd]. intros ->.
  all_paths; try absurd_path; (split; [reflexivity |]);
    intros f' s' H; in_cases H; congruence.
Qed.

Lemma call_keeps_syslogger w severity text g l :
  syslogger g = Some l ->
  let r := call (logf w severity text) g in
  syslogger (globalsOf r) = Some l
  /\ writesOnlyToSyslog l (traceOf r).
Proof.
  destruct g as [lvl use app fac sl fn ofd]. cbn [syslogger]. intros ->.
  unfold writesOnlyToSyslog.
  all_paths; try absurd_path; (split; [reflexivity |]);
    intros ev H W; in_cases H; subst ev; try discriminate W; eauto.
Qed.

Lemma run_keeps_outFd cs : forall g f,
  outFd g = Some f ->
  outFd (globalsOfRun (run cs g)) = Some f
  /\ forall f' s, In (WriteString f' s) (traceOfRun (run cs g)) -> f' = f.
Proof.
  induction cs as [| c cs IH]; intros g f G.
  - cbn. split; [exact G | intros f' s []].
  - rewrite run_cons.
    pose proof (call_keeps_outFd (inWorld c) (inSeverity c) (inText c) g f G)
      as [K W].
    unfold invoke. unfold globalsOf, traceOf in K, W.
    destruct (call (logf (inWorld c) (inSeverity c) (inText c)) g)
      as [[o g'] t]. cbn [fst snd] in K, W.
    destruct o as [p | code | v]; cbn [traceOfRun globalsOfRun fst snd];
      try (split; [exact K | exact W]).
    destruct (IH g' f K) as [K' W']. split; [exact K' |].
    intros f' s H. apply in_app_or in H. destruct H as [H | H]; eauto.
Qed.

Lemma run_keeps_syslogger cs : forall g l,
  syslogger g = Some l ->
  syslogger (globalsOfRun (run cs g)) = Some l
  /\ writesOnlyToSyslog l (traceOfRun (run cs g)).
Proof.
  induction cs as [| c cs IH]; intros g l G.
  - cbn. split; [exact G | intros e []].
  - rewrite run_cons.
    pose proof (call_keeps_syslogger (inWorld c) (inSeverity c) (inText c)
                  g l G) as [K W].
    unfold invoke. unfold globalsOf, traceOf in K, W.
    destruct (call (logf (inWorld c) (inSeverity c) (inText c)) g)
      as [[o g'] t]. cbn [fst snd] in K, W.
    destruct o as [p | code | v]; cbn [traceOfRun globalsOfRun fst snd];
      try (split; [exact K | exact W]).
    destruct (IH g' l K) as [K' W']. split; [exact K' |].
    intros e H. apply in_app_or in H. destruct H as [H | H]; eauto.
Qed.

(** The first accepted call with a log file configured and not yet open,
    when the set-up of the system logger, if it is asked for, does not
    fail. *)
Lemma first_accepted_call_opens_once w severity text g path use :
  fileName g = Some path -> path <> [] ->
  outFd g = None ->
  useSyslog g = Some use ->
  (use = true -> syslogger g = None ->
   exists l, NewLogger w LOG_INFO (syslogFacility g) (appName g) = inl l) ->
  logLevel g <= severity ->
  trimmed text <> [] ->
  let r := call (logf w severity text) g in
  count isOpen (traceOf r) = 1%nat
  /\ In (CallOpenFile path openFlag perm0644) (traceOf r)
  /\ forall fd, OpenFile w path openFlag perm0644 = inl fd ->
                outFd (globalsOf r) = Some (Opened fd).
Proof.
  destruct g as [lvl use' app fac sl fn ofd].
  cbn [fileName outFd useSyslog syslogger syslogFacility appName].
  intros -> P -> -> HN H E.
  destruct path as [| c path]; [congruence |].
  unfold openFlag, perm0644.
  accepted_paths H E; try absurd_path; try discriminate.
  all: try (exfalso;
            repeat match goal with
                   | H : _ && _ = true |- _ =>
                     apply andb_true_iff in H; destruct H
                   | H : isNil ?x = true |- _ =>
                     destruct x; [discriminate H | clear H]
                   end;
            subst; destruct (HN eq_refl eq_refl) as [? ?]; discriminate).
  all: split; [reflexivity |]; split; [cbn; tauto |]; intros fd' O;
    cbn in O; congruence.
Qed.

(** When the client of the system logger cannot be constructed, the call
    panics before it gets to the log file. *)
Lemma failed_client_opens_nothing w severity text g e :
  useSyslog g = Some true -> syslogger g = None ->
  NewLogger w LOG_INFO (syslogFacility g) (appName g) = inr e ->
  logLevel g <= severity ->
  trimmed text <> [] ->
  let r := call (logf w severity text) g in
  outcomeOf r = Panicked (PanicError e)
  /\ count isOpen (traceOf r) = 0%nat
  /\ count isWrite (traceOf r) = 0%nat.
Proof.
  destruct g as [lvl use' app fac sl fn ofd].
  cbn [useSyslog syslogger syslogFacility appName].
  intros -> -> N H E.
  accepted_paths H E; try congruence.
  all: repeat split; congruence.
Qed.

(** One call: it writes nothing and, if it returns, leaves the globals as
    they were, or all it writes goes to one destination, on which the
    globals are settled from then on. *)
Lemma call_settles w severity text g :
  let r := call (logf w severity text) g in
  (count isWrite (traceOf r) = 0%nat
   /\ forall p, outcomeOf r = Returned p -> globalsOf r = g)
  \/ exists d, writesTo d (traceOf r) /\ settledOn d (globalsOf r).
Proof.
  destruct g as [lvl use app fac sl fn ofd]. unfold writesTo.
  destruct use as [[|] |], sl as [l |], fn as [[| c path] |], ofd as [f |].
  all: all_paths.
  all: first
         [ left; split; [reflexivity | intros p' H'; try discriminate H'; reflexivity]
         | right; eexists (ToSyslog _); split;
           [ intros ev H' W'; in_cases H'; subst ev; try discriminate W';
             reflexivity
           | reflexivity ]
         | right; eexists (ToFile _); split;
           [ intros ev H' W'; in_cases H'; subst ev; try discriminate W';
             reflexivity
           | cbn; repeat split; auto ] ].
Qed.

(** Once the globals are settled on a destination, a call writes there and
    nowhere else, and leaves them settled. *)
Lemma settled_call w severity text g d :
  settledOn d g ->
  let r := call (logf w severity text) g in
  writesTo d (traceOf r) /\ settledOn d (globalsOf r).
Proof.
  destruct g as [lvl use app fac sl fn ofd]. unfold writesTo.
  destruct d as [l | f]; cbn [settledOn syslogger useSyslog outFd fileName].
  - intros ->.
    all_paths; try absurd_path; (split; [| reflexivity]);
      intros ev H' W'; in_cases H'; subst ev; try discriminate W';
      reflexivity.
  - intros (-> & -> & [-> | (-> & -> & [-> | ->])]).
    all: all_paths; try absurd_path;
      (split; [| cbn; repeat split; auto]);
      intros ev H' W'; in_cases H'; subst ev; try discriminate W';
      reflexivity.
Qed.

Lemma writesTo_app d t1 t2 :
  writesTo d t1 -> writesTo d t2 -> writesTo d (t1 ++ t2).
Proof.
  intros W1 W2 e H. apply in_app_or in H. destruct H as [H | H]; auto.
Qed.

Lemma no_write_writesTo d t : count isWrite t = 0%nat -> writesTo d t.
Proof.
  unfold count, writesTo. intros C e H W.
  assert (I : In e (filter isWrite t)) by (apply filter_In; split; assumption).
  destruct (filter isWrite t); [destruct I | discriminate C].
Qed.

Lemma settled_run cs : forall g d,
  settledOn d g -> writesTo d (traceOfRun (run cs g)).
Proof.
  induction cs as [| c cs IH]; intros g d S.
  - intros e [].
  - rewrite run_cons. unfold invoke.
    destruct (settled_call (inWorld c) (inSeverity c) (inText c) g d S)
      as [W S'].
    unfold globalsOf, traceOf in *.
    destruct (call (logf (inWorld c) (inSeverity c) (inText c)) g)
      as [[o g'] t]. cbn [fst snd] in *.
    destruct o as [p | code | v]; cbn [traceOfRun fst]; try exact W.
    apply writesTo_app; [exact W | apply IH; exact S'].
Qed.

(** All the writes of a process go to one destination. *)
Lemma run_has_one_destination cs : forall g,
  exists d, writesTo d (traceOfRun (run cs g)).
Proof.
  induction cs as [| c cs IH]; intro g.
  - exists (ToFile Stderr). intros e [].
  - rewrite run_cons. unfold invoke.
    pose proof (call_settles (inWorld c) (inSeverity c) (inText c) g) as C.
    cbv zeta in C. unfold globalsOf, outcomeOf, traceOf in C.
    destruct (call (logf (inWorld c) (inSeverity c) (inText c)) g)
      as [[o g'] t]. cbn [fst snd] in C.
    destruct C as [[N G] | (d & W & S)].
    + destruct o as [p | code | v]; cbn [traceOfRun fst].
      * rewrite (G p eq_refl). destruct (IH g) as [d W]. exists d.
        apply writesTo_app; [apply no_write_writesTo; exact N | exact W].
      * exists (ToFile Stderr). apply no_write_writesTo. exact N.
      * exists (ToFile Stderr). apply no_write_writesTo. exact N.
    + exists d. destruct o as [p | code | v]; cbn [traceOfRun fst];
        try exact W.
      apply writesTo_app; [exact W | apply settled_run; exact S].
Qed.

(** The limit of the above: a panic that the caller recovers from leaves
    the globals without a handle, and the next call opens the file
    again. *)
Lemma open_is_tried_again_after_a_panic :
  let g := configured SeverityDebug false (str "/nonexistent/app.log") in
  let r1 := call (Error sampleWorld (str "disk full")) g in
  let r2 := call (Error sampleWorld (str "disk full")) (globalsOf r1) in
  isPanic (outcomeOf r1) = true
  /\ count isOpen (traceOf r1) = 1%nat
  /\ count isOpen (traceOf r2) = 1%nat.
Proof. vm_compute. repeat split; reflexivity. Qed.

(** ** C1: the threshold filter *)

(** C1, as stated, fails: at threshold Debug, [Info("")] has a severity at
    or above the threshold and yet produces no line at all. *)
Lemma C1_counterexample :
  logLevel (configured SeverityDebug false []) <= SeverityInfo
  /\ count isWrite
       (traceOf (call (Info sampleWorld []) (configured SeverityDebug false [])))
     <> 1%nat.
Proof. split; vm_compute; discriminate. Qed.

(** C1 (amended): a call below the threshold returns at once, with no effect
    and the globals untouched; a call at or above the threshold whose
    trimmed message is not empty and which does not panic while it sets up
    the destination produces exactly one line or one system-logger write. *)
Theorem C1_filter_then_one_write w severity text g :
  (severity < logLevel g ->
   call (logf w severity text) g = (Returned Filtered, g, []))
  /\ (logLevel g <= severity ->
      trimmed text <> [] ->
      isPanic (outcomeOf (call (logf w severity text) g)) = false ->
      count isWrite (traceOf (call (logf w severity text) g)) = 1%nat).
Proof.
  split.
  - apply logf_filtered.
  - apply logf_accepted_writes_once.
Qed.

Lemma C1_filter_then_one_write_witness :
  call (Infof sampleWorld (str "starting")) (configured SeverityWarning false [])
  = (Returned Filtered, configured SeverityWarning false [], [])
  /\ count isWrite
       (traceOf (call (Warnf sampleWorld (str "disk at 91%"))
                      (configured SeverityWarning false [])))
     = 1%nat.
Proof.
  split.
  - apply (proj1 (C1_filter_then_one_write sampleWorld SeverityInfo
                    (str "starting") (configured SeverityWarning false []))).
    vm_compute. reflexivity.
  - apply (proj2 (C1_filter_then_one_write sampleWorld SeverityWarning
                    (str "disk at 91%") (configured SeverityWarning false []))).
    + vm_compute. discriminate.
    + vm_compute. discriminate.
    + vm_compute. reflexivity.
Defined.

(** ** C2: which destination is set up and written *)

(** C2, as stated, fails: with the system logger switched on and a log file
    configured, the first accepted call sets up both, the client and the
    file (which [os.OpenFile] creates), although only the system logger is
    written. *)
Lemma C2_counterexample :
  let g := configured SeverityDebug true (str "/var/log/app.log") in
  let r := call (Info sampleWorld (str "hello")) g in
  syslogger (globalsOf r) = Some 77
  /\ outFd (globalsOf r) = Some (Opened 3)
  /\ traceOf r
     = [ Lock;
         CallNewLogger LOG_INFO (str "DAEMON") (str "myapp");
         CallOpenFile (str "/var/log/app.log") openFlag perm0644;
         WriteLevel 77 LOG_INFO (str "hello");
         Unlock ].
Proof. vm_compute. repeat split; reflexivity. Qed.

(** C2 (amended): an accepted call that finds no destination set up yet
    writes to exactly one of the system logger, the log file and standard
    error. With the system logger switched on and a log file configured,
    the write goes to the system logger alone, but the log file is opened
    as well and its handle kept, unwritten; with a log file only, the file
    is opened, written and synced; with neither, the line goes to standard
    error and no handle is set up. *)
Theorem C2_destination_priority w severity text g :
  SeverityDebug <= severity <= SeverityFatal ->
  logLevel g <= severity ->
  trimmed text <> [] ->
  syslogger g = None ->
  outFd g = None ->
  let r := call (logf w severity text) g in
  (forall path l fd,
     useSyslog g = Some true ->
     fileName g = Some path -> path <> [] ->
     NewLogger w LOG_INFO (syslogFacility g) (appName g) = inl l ->
     OpenFile w path openFlag perm0644 = inl fd ->
     syslogger (globalsOf r) = Some l
     /\ outFd (globalsOf r) = Some (Opened fd)
     /\ exists p,
          nth_error severityToSyslogPriority (Z.to_nat severity) = Some p
          /\ io (traceOf r)
             = [ CallNewLogger LOG_INFO (syslogFacility g) (appName g);
                 CallOpenFile path openFlag perm0644;
                 WriteLevel l p (trimmed text) ])
  /\ (forall path fd,
        useSyslog g = Some false ->
        fileName g = Some path -> path <> [] ->
        OpenFile w path openFlag perm0644 = inl fd ->
        syslogger (globalsOf r) = None
        /\ outFd (globalsOf r) = Some (Opened fd)
        /\ exists name,
             nth_error SeverityName (Z.to_nat severity) = Some name
             /\ io (traceOf r)
                = [ CallOpenFile path openFlag perm0644;
                    WriteString (Opened fd)
                      (fmt.Sprintf lineFormat
                         (lineArgs (Now w) (appName g) name (trimmed text)));
                    Sync (Opened fd) ])
  /\ (useSyslog g = Some false ->
      fileName g = None \/ fileName g = Some [] ->
      globalsOf r = g
      /\ exists name,
           nth_error SeverityName (Z.to_nat severity) = Some name
           /\ io (traceOf r)
              = [ WriteString Stderr
                    (fmt.Sprintf lineFormat
                       (lineArgs (Now w) (appName g) name (trimmed text))) ]).
Proof.
  intros R H E SL FD r; subst r.
  pose proof (nth_error_in_range SeverityName severity eq_refl R) as N1.
  pose proof (nth_error_in_range severityToSyslogPriority severity eq_refl R)
    as N2.
  assert (Z0 : (0 <=? severity) = true)
    by (apply Z.leb_le; unfold SeverityDebug in R; lia).
  destruct g as [lvl use app fac sl fn ofd]. cbn in SL, FD. subst sl ofd.
  unfold openFlag, perm0644 in *. cbn [syslogFacility appName useSyslog fileName].
  split; [| split].
  - intros path l fd -> -> P NL OF. destruct path as [| c path]; [congruence |].
    cbn in OF.
    unfold io. accepted_paths H E; try congruence.
    all: repeat split; try congruence; eexists; split; eauto; congruence.
  - intros path fd -> -> P OF. destruct path as [| c path]; [congruence |].
    cbn in OF.
    unfold io. accepted_paths H E; try congruence.
    all: repeat split; try congruence; eexists; split; eauto; congruence.
  - intros -> [-> | ->].
    all: unfold io; accepted_paths H E; try congruence.
    all: repeat split; try congruence; eexists; split; eauto; congruence.
Qed.

Lemma C2_destination_priority_witness :
  (let r := call (Info sampleWorld (str "hello"))
                 (configured SeverityDebug true (str "/var/log/app.log")) in
   syslogger (globalsOf r) = Some 77 /\ outFd (globalsOf r) = Some (Opened 3))
  /\ (let r := call (Info sampleWorld (str "hello"))
                    (configured SeverityDebug false (str "/var/log/app.log")) in
      syslogger (globalsOf r) = None /\ outFd (globalsOf r) = Some (Opened 3))
  /\ (let r := call (Info sampleWorld (str "hello"))
                    (configured SeverityDebug false []) in
      globalsOf r = configured SeverityDebug false []).
Proof.
  split; [| split].
  - destruct (C2_destination_priority sampleWorld SeverityInfo (str "hello")
                (configured SeverityDebug true (str "/var/log/app.log")))
      as [A _].
    + vm_compute. split; discriminate.
    + vm_compute. discriminate.
    + vm_compute. discriminate.
    + reflexivity.
    + reflexivity.
    + destruct (A (str "/var/log/app.log") 77 3) as (S1 & S2 & _).
      * reflexivity.
      * reflexivity.
      * vm_compute. discriminate.
      * reflexivity.
      * reflexivity.
      * split; assumption.
  - destruct (C2_destination_priority sampleWorld SeverityInfo (str "hello")
                (configured SeverityDebug false (str "/var/log/app.log")))
      as (_ & B & _).
    + vm_compute. split; discriminate.
    + vm_compute. discriminate.
    + vm_compute. discriminate.
    + reflexivity.
    + reflexivity.
    + destruct (B (str "/var/log/app.log") 3) as (S1 & S2 & _).
      * reflexivity.
      * reflexivity.
      * vm_compute. discriminate.
      * reflexivity.
      * split; assumption.
  - destruct (C2_destination_priority sampleWorld SeverityInfo (str "hello")
                (configured SeverityDebug false []))
      as (_ & _ & C).
    + vm_compute. split; discriminate.
    + vm_compute. discriminate.
    + vm_compute. discriminate.
    + reflexivity.
    + reflexivity.
    + destruct C as (S1 & _).
      * reflexivity.
      * right. reflexivity.
      * exact S1.
Defined.

(** ** C3: empty messages *)

(** C3: a message that is empty once trimmed is dropped, at every severity,
    Fatal included: the call returns, nothing is written, no destination is
    set up and the globals are untouched. *)
Theorem C3_empty_message_is_dropped w severity text g :
  strings.TrimSpace (strings.TrimSuffix text LF) = [] ->
  exists p, call (logf w severity text) g = (Returned p, g, []).
Proof.
  intro E. destruct (Z.lt_ge_cases severity (logLevel g)) as [L | L].
  - exists Filtered. now apply logf_filtered.
  - exists Discarded. now apply logf_discarded.
Qed.

Lemma C3_empty_message_is_dropped_witness :
  exists p,
    call (logf sampleWorld SeverityFatal (str "  " ++ [x09] ++ LF))
         (configured SeverityDebug false (str "/var/log/app.log"))
    = (Returned p, configured SeverityDebug false (str "/var/log/app.log"), []).
Proof.
  apply (C3_empty_message_is_dropped sampleWorld SeverityFatal
           (str "  " ++ [x09] ++ LF)).
  vm_compute. reflexivity.
Defined.
(** ** C4: the fatal exit *)

(** ** C4: the fatal exit *)

(** C4, as stated, fails: a Fatal call with a message, accepted by the
    filter, whose log file cannot be opened panics with the error of
    [os.OpenFile]; nothing has been written and the process does not end
    through [os.Exit(255)]. *)
Lemma C4_counterexample :
  let g := configured SeverityDebug false (str "/nonexistent/app.log") in
  let r := call (Fatal sampleWorld (str "boom")) g in
  logLevel g <= SeverityFatal
  /\ trimmed (str "boom") <> []
  /\ outcomeOf r = Panicked (PanicError (str "open: no such file or directory"))
  /\ outcomeOf r <> Exited 255
  /\ count isWrite (traceOf r) = 0%nat.
Proof. vm_compute. repeat split; discriminate. Qed.

(** C4 (amended): a call at Fatal severity that passes the filter, has a
    message left once trimmed and does not panic while it sets up the
    destination ends the process with [os.Exit(255)], after the one write
    of the call, which carries that message. The write is the last effect
    before the exit when it goes to the system logger or to standard
    error; the write to the log file is followed by the [Sync] of that
    file, and the exit comes after the sync. *)
Theorem C4_fatal_exits_after_the_write w severity text g :
  SeverityFatal <= severity ->
  logLevel g <= severity ->
  trimmed text <> [] ->
  isPanic (outcomeOf (call (logf w severity text) g)) = false ->
  outcomeOf (call (logf w severity text) g) = Exited 255
  /\ count isWrite (traceOf (call (logf w severity text) g)) = 1%nat
  /\ (exists e,
        lastEffect (traceOf (call (logf w severity text) g)) = Some e
        /\ isWrite e = true
        /\ carries (Now w) (appName g) severity (trimmed text) e)
  /\ endsWithTheWrite (Now w) (appName g) severity (trimmed text)
        (globalsOf (call (logf w severity text) g))
        (traceOf (call (logf w severity text) g)).
Proof.
  intros F H E. apply Z.leb_le in F. unfold endsWithTheWrite.
  destruct g as [lvl use app fac sl fn ofd]. cbn [appName].
  accepted_paths H E; try absurd_path; intros NP; try discriminate NP;
    try (rewrite F in *; discriminate).
  all: (split; [reflexivity |]); (split; [reflexivity |]); split;
    [ eexists; repeat split; eauto
    | repeat match goal with
             | |- _ /\ _ => split
             | |- exists _, _ => eexists
             end; eauto ].
Qed.

Lemma C4_fatal_exits_after_the_write_witness :
  let g := configured SeverityDebug false (str "/var/log/app.log") in
  let r := call (Fatal sampleWorld (str "boom")) g in
  outcomeOf r = Exited 255
  /\ endsWithTheWrite (Now sampleWorld) (appName g) SeverityFatal
        (trimmed (str "boom")) (globalsOf r) (traceOf r).
Proof.
  intros g r.
  destruct (C4_fatal_exits_after_the_write sampleWorld SeverityFatal
              (str "boom") g) as (X & _ & _ & S).
  - vm_compute. discriminate.
  - vm_compute. discriminate.
  - vm_compute. discriminate.
  - vm_compute. reflexivity.
  - split; [exact X | exact S].
Defined.

(** ** C5: the format of a line *)

(** C5: on a clock that shows the year 1000 or a later one, as the system
    clock that [time.Now()] reads does, each line written to the log file
    or to standard error is the format
    [[%04d-%02d-%02d %02d:%02d:%02d] [%s] [%s] %s\n] applied to the date
    and time, the application name, the upper-case name of the severity
    and the trimmed message. (The format of the source has [%d] for the
    year, which prints a year of four or more digits as [%04d] does.) *)
Theorem C5_line_format w severity text g f line :
  1000 <= year (Now w) ->
  In (WriteString f line) (traceOf (call (logf w severity text) g)) ->
  exists name,
    nth_error SeverityName (Z.to_nat severity) = Some name
    /\ forallb isUpper name = true
    /\ line = fmt.Sprintf specLineFormat
                (lineArgs (Now w) (appName g) name (trimmed text))
    /\ line
       = str "[" ++ fmt.fmtInteger true (Some 4) (year (Now w))
         ++ str "-" ++ fmt.fmtInteger true (Some 2) (month (Now w))
         ++ str "-" ++ fmt.fmtInteger true (Some 2) (day (Now w))
         ++ str " " ++ fmt.fmtInteger true (Some 2) (hour (Now w))
         ++ str ":" ++ fmt.fmtInteger true (Some 2) (minute (Now w))
         ++ str ":" ++ fmt.fmtInteger true (Some 2) (second (Now w))
         ++ str "] [" ++ appName g
         ++ str "] [" ++ name
         ++ str "] " ++ trimmed text ++ LF.
Proof.
  intros Y H.
  destruct (written_line w severity text g f line H) as (name & N & ->).
  exists name. split; [exact N |].
  split; [apply SeverityName_upper; eapply nth_error_In; exact N |].
  rewrite <- (lineFormat_agrees_with_spec _ _ _ _ Y).
  split; reflexivity.
Qed.

Lemma C5_line_format_witness :
  exists name,
    nth_error SeverityName (Z.to_nat SeverityWarning) = Some name
    /\ forallb isUpper name = true
    /\ str "[2018-03-07 09:05:00] [myapp] [WARNING] disk at 91%" ++ LF
       = fmt.Sprintf specLineFormat
           (lineArgs (Now sampleWorld)
                     (appName (configured SeverityWarning false [])) name
                     (trimmed (str "disk at 91%")))
    /\ str "[2018-03-07 09:05:00] [myapp] [WARNING] disk at 91%" ++ LF
       = str "[" ++ fmt.fmtInteger true (Some 4) (year (Now sampleWorld))
         ++ str "-" ++ fmt.fmtInteger true (Some 2) (month (Now sampleWorld))
         ++ str "-" ++ fmt.fmtInteger true (Some 2) (day (Now sampleWorld))
         ++ str " " ++ fmt.fmtInteger true (Some 2) (hour (Now sampleWorld))
         ++ str ":" ++ fmt.fmtInteger true (Some 2) (minute (Now sampleWorld))
         ++ str ":" ++ fmt.fmtInteger true (Some 2) (second (Now sampleWorld))
         ++ str "] [" ++ appName (configured SeverityWarning false [])
         ++ str "] [" ++ name
         ++ str "] " ++ trimmed (str "disk at 91%") ++ LF.
Proof.
  apply (C5_line_format sampleWorld SeverityWarning (str "disk at 91%")
           (configured SeverityWarning false []) Stderr).
  - vm_compute. discriminate.
  - vm_compute. right. left. reflexivity.
Defined.

(** ** C6: before [Init] nothing is logged *)

(** C6: without [Init] the threshold is the sentinel [SeverityLast], above
    the seven severities of the exported functions; each of these functions
    returns at the filter with no effect, and so does every sequence of
    calls at these severities: no message is ever accepted. *)
Theorem C6_nothing_is_logged_before_Init :
  logLevel _globals = SeverityLast
  /\ Forall (fun s => s < SeverityLast) publicSeverities
  /\ Forall (fun f => forall w text,
               call (f w text) _globals = (Returned Filtered, _globals, []))
            publicAPI
  /\ forall cs,
       Forall (fun c => In (inSeverity c) publicSeverities) cs ->
       run cs _globals = ([], _globals, None).
Proof.
  split; [reflexivity |]. split.
  { unfold publicSeverities. repeat constructor. }
  split; [exact public_functions_filtered_before_Init |].
  intros cs H. apply run_all_filtered.
  eapply Forall_impl; [| exact H]. cbn. intros c Hc.
  repeat (destruct Hc as [<- | Hc]; [reflexivity |]). destruct Hc.
Qed.

Lemma C6_nothing_is_logged_before_Init_witness :
  run [ mkInvocation sampleWorld SeverityFatal (str "boom");
        mkInvocation sampleWorld SeverityDebug (str "hello") ] _globals
  = ([], _globals, None).
Proof.
  apply (proj2 (proj2 (proj2 C6_nothing_is_logged_before_Init))).
  repeat constructor; cbn; tauto.
Defined.

(** ** C7: the destination is set up once *)

(** C7, as stated, fails: the first call past the filter may carry a message
    that is empty once trimmed; it opens nothing, and the log file is
    opened by a later call. *)
Lemma C7_counterexample :
  let g := configured SeverityDebug false (str "/var/log/app.log") in
  logLevel g <= SeverityInfo
  /\ count isOpen (traceOf (call (Info sampleWorld (str " ")) g)) = 0%nat
  /\ traceOfRun (run [ mkInvocation sampleWorld SeverityInfo (str " ");
                       mkInvocation sampleWorld SeverityInfo (str "hello") ] g)
     = [ Lock;
         CallOpenFile (str "/var/log/app.log") openFlag perm0644;
         WriteString (Opened 3)
           (str "[2018-03-07 09:05:00] [myapp] [INFO] hello" ++ LF);
         Sync (Opened 3);
         Unlock ].
Proof. vm_compute. repeat split; try reflexivity; discriminate. Qed.

(** C7 (amended): in a process that a panic of [logf] ends (no caller
    recovers from it) and whose flag values stay as they are between the
    calls, the log file is opened at most once and the system-logger
    client is constructed at most once, and the destination is sticky: all
    the writes of the process go to one destination. With a
    log file configured after [Init] and not yet open, the first call past
    the filter whose trimmed message is not empty opens it exactly once,
    for appending, created if absent, provided the client of the system
    logger, if the switch asks for one, can be constructed; if it cannot,
    that call panics and opens nothing. Once the globals hold a handle,
    every later call keeps it, opens nothing and writes to no other file;
    likewise for the system-logger client. *)
Theorem C7_destination_is_set_up_once :
  (forall cs g,
     (count isOpen (traceOfRun (run cs g)) <= 1)%nat
     /\ (count isNewLogger (traceOfRun (run cs g)) <= 1)%nat
     /\ exists d, writesTo d (traceOfRun (run cs g)))
  /\ (forall w severity text g path use,
        fileName g = Some path -> path <> [] ->
        outFd g = None ->
        useSyslog g = Some use ->
        (use = true -> syslogger g = None ->
         exists l,
           NewLogger w LOG_INFO (syslogFacility g) (appName g) = inl l) ->
        logLevel g <= severity ->
        trimmed text <> [] ->
        let r := call (logf w severity text) g in
        count isOpen (traceOf r) = 1%nat
        /\ In (CallOpenFile path openFlag perm0644) (traceOf r)
        /\ Z.land openFlag O_APPEND = O_APPEND
        /\ Z.land openFlag O_CREATE = O_CREATE
        /\ forall fd, OpenFile w path openFlag perm0644 = inl fd ->
                      outFd (globalsOf r) = Some (Opened fd))
  /\ (forall w severity text g e,
        useSyslog g = Some true -> syslogger g = None ->
        NewLogger w LOG_INFO (syslogFacility g) (appName g) = inr e ->
        logLevel g <= severity ->
        trimmed text <> [] ->
        let r := call (logf w severity text) g in
        outcomeOf r = Panicked (PanicError e)
        /\ count isOpen (traceOf r) = 0%nat
        /\ count isWrite (traceOf r) = 0%nat)
  /\ (forall cs g f,
        outFd g = Some f ->
        count isOpen (traceOfRun (run cs g)) = 0%nat
        /\ outFd (globalsOfRun (run cs g)) = Some f
        /\ forall f' s, In (WriteString f' s) (traceOfRun (run cs g)) -> f' = f)
  /\ (forall cs g l,
        syslogger g = Some l ->
        count isNewLogger (traceOfRun (run cs g)) = 0%nat
        /\ syslogger (globalsOfRun (run cs g)) = Some l
        /\ writesOnlyToSyslog l (traceOfRun (run cs g))).
Proof.
  split; [| split; [| split; [| split]]].
  - intros cs g. pose proof (run_opens cs g). pose proof (run_newLoggers cs g).
    unfold opensLeft, loggersLeft in *.
    split; [| split]; [| | apply run_has_one_destination];
      destruct (isNil (outFd g)), (isNil (syslogger g)); lia.
  - intros w severity text g path use F P O U N H E r.
    destruct (first_accepted_call_opens_once w severity text g path use
                F P O U N H E) as (A & B & C).
    repeat split; try assumption; reflexivity.
  - intros w severity text g e U S N H E.
    apply failed_client_opens_nothing; assumption.
  - intros cs g f G. pose proof (run_opens cs g) as N.
    unfold opensLeft in N. rewrite G in N. cbn in N.
    destruct (run_keeps_outFd cs g f G) as [K W].
    repeat split; try assumption. lia.
  - intros cs g l G. pose proof (run_newLoggers cs g) as N.
    unfold loggersLeft in N. rewrite G in N. cbn in N.
    destruct (run_keeps_syslogger cs g l G) as [K W].
    repeat split; try assumption. lia.
Qed.

Lemma C7_destination_is_set_up_once_witness :
  (let r := call (Info sampleWorld (str "hello"))
                 (configured SeverityDebug false (str "/var/log/app.log")) in
   count isOpen (traceOf r) = 1%nat
   /\ outFd (globalsOf r) = Some (Opened 3))
  /\ (let r := call (Info sampleWorld (str "hello"))
                    (configured SeverityDebug true (str "/var/log/app.log")) in
      count isOpen (traceOf r) = 1%nat
      /\ outFd (globalsOf r) = Some (Opened 3))
  /\ (let r := call (Info worldWithoutSyslog (str "hello"))
                    (configured SeverityDebug true (str "/var/log/app.log")) in
      outcomeOf r = Panicked (PanicError (str "Unix syslog delivery error"))
      /\ count isOpen (traceOf r) = 0%nat)
  /\ (let g := set_outFd (Opened 3)
                 (configured SeverityDebug false (str "/var/log/app.log")) in
      let cs := [ mkInvocation sampleWorld SeverityInfo (str "again");
                  mkInvocation sampleWorld SeverityError (str "and again") ] in
      count isOpen (traceOfRun (run cs g)) = 0%nat
      /\ outFd (globalsOfRun (run cs g)) = Some (Opened 3))
  /\ (let g := set_syslogger 77 (configured SeverityDebug true []) in
      let cs := [ mkInvocation sampleWorld SeverityInfo (str "again") ] in
      count isNewLogger (traceOfRun (run cs g)) = 0%nat
      /\ syslogger (globalsOfRun (run cs g)) = Some 77).
Proof.
  destruct C7_destination_is_set_up_once
    as (_ & First & Failed & Later & Logger).
  split; [| split; [| split; [| split]]].
  - destruct (First sampleWorld SeverityInfo (str "hello")
                (configured SeverityDebug false (str "/var/log/app.log"))
                (str "/var/log/app.log") false) as (A & _ & _ & _ & B).
    + reflexivity.
    + vm_compute. discriminate.
    + reflexivity.
    + reflexivity.
    + intro H. discriminate H.
    + vm_compute. discriminate.
    + vm_compute. discriminate.
    + split; [exact A | apply B; reflexivity].
  - destruct (First sampleWorld SeverityInfo (str "hello")
                (configured SeverityDebug true (str "/var/log/app.log"))
                (str "/var/log/app.log") true) as (A & _ & _ & _ & B).
    + reflexivity.
    + vm_compute. discriminate.
    + reflexivity.
    + reflexivity.
    + intros _ _. exists 77. reflexivity.
    + vm_compute. discriminate.
    + vm_compute. discriminate.
    + split; [exact A | apply B; reflexivity].
  - destruct (Failed worldWithoutSyslog SeverityInfo (str "hello")
                (configured SeverityDebug true (str "/var/log/app.log"))
                (str "Unix syslog delivery error")) as (A & B & _).
    + reflexivity.
    + reflexivity.
    + reflexivity.
    + vm_compute. discriminate.
    + vm_compute. discriminate.
    + split; [exact A | exact B].
  - intros g cs. destruct (Later cs g (Opened 3)) as (A & B & _).
    + reflexivity.
    + split; assumption.
  - intros g cs. destruct (Logger cs g 77) as (A & B & _).
    + reflexivity.
    + split; assumption.
Defined.

(** ** C8: no error is returned *)

(** C8, as stated, fails twice. A second [Init] does not return success:
    [flag.Bool] panics, because the flag [syslog] is defined already. And
    the string [99999999999999999999x] is not a base-10 integer, but
    [Atoi] reports the overflow of its twenty leading digits before it
    reads the [x], and returns the largest [int] with a range error; the
    threshold becomes [-1], not zero. *)
Lemma C8_counterexample :
  (let '(_, g, fs) := Init (str "myapp") SeverityWarning [] _globals [] in
   fst (fst (Init (str "myapp") SeverityWarning [] g fs))
   = FlagRedefined (str "syslog"))
  /\ isBase10Integer (str "99999999999999999999x") = false
  /\ strconv.Atoi (str "99999999999999999999x")
     = (9223372036854775807, Some strconv.ErrRange)
  /\ Severity_Set SeverityLast (str "99999999999999999999x") = (None, -1).
Proof. vm_compute. repeat split; reflexivity. Qed.

(** C8 (amended): neither [Init] nor [Set] returns an error. [Init]
    returns nil, for all arguments, when none of the flags [syslog],
    [logfile] and [loglevel] is defined yet, and then stores ["DAEMON"] for
    an empty facility; when one of them is defined already, as at every
    [Init] after the first, it does not return: package flag panics.
    [Set] returns nil for every string. A string that is not a base-10
    integer sets the threshold to zero, unless it has no minus sign and
    the number its leading digits denote is too large for a [uint64]:
    [Atoi] then reports a range error before it reads on, and the
    threshold becomes [-1]. So a syntax error of [Atoi] always gives zero,
    as does every string of at most 19 bytes that is not a base-10
    integer, and a range error always leaves [-1] or zero. *)
Theorem C8_no_error_is_returned :
  (forall appName' logLevel' facility g fs err,
     fst (fst (Init appName' logLevel' facility g fs)) = InitReturned err ->
     err = None)
  /\ (forall appName' logLevel' facility g fs,
        isDefined (str "syslog") fs = false ->
        isDefined (str "logfile") fs = false ->
        isDefined (str "loglevel") fs = false ->
        let r := Init appName' logLevel' facility g fs in
        fst (fst r) = InitReturned None
        /\ logLevel (snd (fst r)) = logLevel'
        /\ appName (snd (fst r)) = appName'
        /\ syslogFacility (snd (fst r))
           = if len facility =? 0 then str "DAEMON" else facility)
  /\ (forall appName' logLevel' facility g fs,
        (isDefined (str "syslog") fs || isDefined (str "logfile") fs
         || isDefined (str "loglevel") fs) = true ->
        exists name,
          fst (fst (Init appName' logLevel' facility g fs))
          = FlagRedefined name
          /\ isDefined name fs = true)
  /\ (forall s strVal, fst (Severity_Set s strVal) = None)
  /\ (forall s strVal,
        snd (strconv.Atoi strVal) = Some strconv.ErrSyntax ->
        snd (Severity_Set s strVal) = 0)
  /\ (forall s strVal,
        isBase10Integer strVal = false ->
        (length strVal <= 19)%nat ->
        snd (Severity_Set s strVal) = 0)
  /\ (forall s strVal,
        isBase10Integer strVal = false ->
        snd (Severity_Set s strVal)
        = if negb (hasMinus strVal)
             && leadingDigitsOverflow (unsignedPart strVal)
          then -1 else 0)
  /\ (forall s strVal,
        snd (strconv.Atoi strVal) = Some strconv.ErrRange ->
        snd (Severity_Set s strVal) = 0 \/ snd (Severity_Set s strVal) = -1).
Proof.
  split; [| split; [| split; [| split; [| split; [| split; [| split]]]]]].
  - intros a l f g fs err. unfold Init, define.
    repeat match goal with
           | |- context [if ?b then _ else _] => destruct b eqn:?
           end; cbn [fst]; intro H; congruence.
  - intros a l f g fs S F L. cbv zeta. unfold Init, define.
    cbn [Name]. rewrite S.
    assert (F1 : forall x, isDefined (str "logfile") (fs ++ [x])
                           = isDefined (str "logfile") [x]).
    { intro x. unfold isDefined. rewrite existsb_app.
      fold (isDefined (str "logfile") fs). rewrite F. reflexivity. }
    assert (L1 : forall x y, isDefined (str "loglevel") ((fs ++ [x]) ++ [y])
                             = isDefined (str "loglevel") [x; y]).
    { intros x y. unfold isDefined. rewrite !existsb_app.
      fold (isDefined (str "loglevel") fs). rewrite L. cbn [existsb orb].
      rewrite orb_false_r. reflexivity. }
    rewrite F1. cbn [isDefined existsb Name].
    replace (eqb_gostring (str "syslog") (str "logfile")) with false
      by reflexivity.
    cbn [orb]. rewrite L1. cbn [isDefined existsb Name].
    replace (eqb_gostring (str "syslog") (str "loglevel")) with false
      by reflexivity.
    replace (eqb_gostring (str "logfile") (str "loglevel")) with false
      by reflexivity.
    cbn [orb fst snd]. repeat split; reflexivity.
  - intros a l f g fs D. unfold Init, define. cbn [Name].
    destruct (isDefined (str "syslog") fs) eqn:S.
    { eexists. split; [reflexivity | exact S]. }
    destruct (isDefined (str "logfile") (fs ++ _)) eqn:F.
    { eexists. split; [reflexivity |].
      unfold isDefined in F. rewrite existsb_app in F.
      apply orb_true_iff in F. destruct F as [F | F]; [exact F |].
      discriminate F. }
    destruct (isDefined (str "loglevel") ((fs ++ _) ++ _)) eqn:L.
    { eexists. split; [reflexivity |].
      unfold isDefined in L. rewrite !existsb_app in L.
      apply orb_true_iff in L. destruct L as [L | L]; [| discriminate L].
      apply orb_true_iff in L. destruct L as [L | L]; [exact L |].
      discriminate L. }
    exfalso.
    unfold isDefined in F, L. rewrite existsb_app in F.
    rewrite !existsb_app in L.
    apply orb_false_iff in F. destruct F as [F _].
    apply orb_false_iff in L. destruct L as [L _].
    apply orb_false_iff in L. destruct L as [L _].
    unfold isDefined in D. rewrite F, L in D. discriminate D.
  - intros s strVal. unfold Severity_Set.
    destruct (strconv.Atoi strVal). reflexivity.
  - intros s strVal. unfold Severity_Set, strconv.Atoi, strconv.ParseInt.
    destruct strVal as [| c rest]; [reflexivity |].
    destruct (strconv.ParseUint _) as [un [[|] |]]; cbn [snd];
      try reflexivity;
      repeat match goal with
             | |- context [if ?b then _ else _] => destruct b
             end; cbn [snd]; intro H; discriminate H.
  - intros s strVal F L. unfold Severity_Set.
    destruct (Atoi_malformed strVal F) as [A | [[A G] | [A G]]];
      try lia.
    rewrite A. reflexivity.
  - intros s strVal F. unfold Severity_Set.
    rewrite (Atoi_malformed_cases strVal F).
    destruct (leadingDigitsOverflow (unsignedPart strVal));
      destruct (hasMinus strVal); reflexivity.
  - intros s strVal. unfold Severity_Set, strconv.Atoi, strconv.ParseInt.
    destruct strVal as [| c rest]; [discriminate |].
    destruct (strconv.ParseUint _) as [un [[|] |]]; cbn [snd];
      try discriminate;
      repeat match goal with
             | |- context [if ?b then _ else _] => destruct b
             end; cbn [snd]; intro H; try discriminate H;
      first [left; reflexivity | right; reflexivity].
Qed.

Lemma C8_no_error_is_returned_witness :
  fst (fst (Init (str "myapp") SeverityWarning [] _globals []))
  = InitReturned None
  /\ (exists name,
        fst (fst (Init (str "myapp") SeverityWarning []
                       (configured SeverityWarning false [])
                       [ mkFlag (str "syslog") (str "false") [] ]))
        = FlagRedefined name
        /\ isDefined name [ mkFlag (str "syslog") (str "false") [] ] = true)
  /\ snd (Severity_Set SeverityLast (str "debug")) = 0
  /\ snd (Severity_Set SeverityLast (str "1e3")) = 0
  /\ snd (Severity_Set SeverityLast (str "99999999999999999999x"))
     = (if negb (hasMinus (str "99999999999999999999x"))
           && leadingDigitsOverflow
                (unsignedPart (str "99999999999999999999x"))
        then -1 else 0)
  /\ snd (Severity_Set SeverityLast (str "-99999999999999999999x"))
     = (if negb (hasMinus (str "-99999999999999999999x"))
           && leadingDigitsOverflow
                (unsignedPart (str "-99999999999999999999x"))
        then -1 else 0)
  /\ (snd (Severity_Set SeverityLast (str "-99999999999999999999")) = 0
      \/ snd (Severity_Set SeverityLast (str "-99999999999999999999")) = -1).
Proof.
  destruct C8_no_error_is_returned
    as (_ & First & Later & _ & Syntax & Short & Exact & Range).
  split; [| split; [| split; [| split; [| split; [| split]]]]].
  - apply (First (str "myapp") SeverityWarning [] _globals []);
      vm_compute; reflexivity.
  - apply Later. vm_compute. reflexivity.
  - apply Syntax. vm_compute. reflexivity.
  - apply Short; vm_compute; [reflexivity | ].
    repeat constructor.
  - apply Exact. vm_compute. reflexivity.
  - apply Exact. vm_compute. reflexivity.
  - apply Range. vm_compute. reflexivity.
Defined.

(** ** C9: rendering and parsing a [Severity] *)

(** C9: for every [Severity] value [s], an [int32], setting a threshold
    from the string [s.String()] returns no error and leaves the threshold
    at [s]. *)
Theorem C9_Set_of_String (s0 s : Severity) :
  - 2 ^ 31 <= s < 2 ^ 31 ->
  Severity_Set s0 (Severity_String s) = (None, s).
Proof.
  intro R. unfold Severity_Set, Severity_String, Severity_set.
  rewrite Atoi_FormatInt.
  - rewrite to_int32_small by exact R. reflexivity.
  - assert (P : 2 ^ 31 = 2147483648) by reflexivity.
    assert (Q : 2 ^ 63 = 9223372036854775808) by reflexivity.
    rewrite P in R. rewrite Q. lia.
Qed.

Lemma C9_Set_of_String_witness :
  Severity_Set SeverityLast (Severity_String (-2147483648))
  = (None, -2147483648).
Proof.
  apply (C9_Set_of_String SeverityLast (-2147483648)).
  split; [vm_compute; discriminate | vm_compute; reflexivity].
Defined.

(** ** C10: the nil pointers before [Init] *)

(** C10: before [Init] the pointers [useSyslog] and [fileName] are nil, and
    no exported function reaches the code that dereferences them: each
    returns at the filter, because the threshold is [SeverityLast]. With a
    lower threshold in their place the same calls would panic on the nil
    pointer. *)
Theorem C10_nil_pointers_unreachable_before_Init :
  useSyslog _globals = None
  /\ fileName _globals = None
  /\ Forall (fun f => forall w text,
               outcomeOf (call (f w text) _globals) = Returned Filtered
               /\ traceOf (call (f w text) _globals) = [])
            publicAPI
  /\ forall w severity text level,
       level <= severity ->
       trimmed text <> [] ->
       outcomeOf (call (logf w severity text) (set_logLevel level _globals))
       = Panicked NilDereference.
Proof.
  split; [reflexivity |]. split; [reflexivity |]. split.
  - eapply Forall_impl; [| exact public_functions_filtered_before_Init].
    cbn. intros f H w text. rewrite H. split; reflexivity.
  - intros w severity text level H E.
    change level with (logLevel (set_logLevel level _globals)) in H.
    accepted_paths H E. reflexivity.
Qed.

Lemma C10_nil_pointers_unreachable_before_Init_witness :
  outcomeOf (call (logf sampleWorld SeverityInfo (str "hello"))
                  (set_logLevel SeverityDebug _globals))
  = Panicked NilDereference.
Proof.
  apply (proj2 (proj2 (proj2 C10_nil_pointers_unreachable_before_Init))).
  - vm_compute. discriminate.
  - vm_compute. discriminate.
Defined.

(** * More properties of the package *)

(** ** The mutex *)

(** What the comparisons of a path say. *)
Ltac path_facts :=
  repeat match goal with
         | H : (len _ <=? 0) = false |- _ => apply len_pos_iff in H
         | H : (len _ <=? 0) = true |- _ => apply len_nil_iff in H
         | H : (_ <=? _) = true |- _ => apply Z.leb_le in H
         | H : (_ <=? _) = false |- _ => apply Z.leb_gt in H
         | H : (_ <? _) = true |- _ => apply Z.ltb_lt in H
         | H : (_ <? _) = false |- _ => apply Z.ltb_ge in H
         end.

(** X1: a call that is filtered or discarded never takes the mutex. A call
    that is accepted takes it first and, when it returns or panics, releases
    it last, once; all it does to the destinations happens in between. A
    call that ends in [os.Exit] has taken the mutex and never releases it:
    the deferred [Unlock] does not run. *)
Theorem X1_mutex_discipline w severity text g :
  let r := call (logf w severity text) g in
  match outcomeOf r with
  | Returned Filtered | Returned Discarded => traceOf r = []
  | Returned Completed | Panicked _ =>
    hd_error (traceOf r) = Some Lock
    /\ last (traceOf r) Lock = Unlock
    /\ count isLock (traceOf r) = 1%nat
    /\ count isUnlock (traceOf r) = 1%nat
  | Exited _ =>
    hd_error (traceOf r) = Some Lock
    /\ count isLock (traceOf r) = 1%nat
    /\ count isUnlock (traceOf r) = 0%nat
  end.
Proof.
  all_paths; repeat split; reflexivity.
Qed.

(** ** Writes to the log file are synced *)

(** X2: every line written to the opened log file is followed at once by
    a [Sync] of that file; a call that leaves no file handle in the globals
    (it wrote to standard error or to the system logger) syncs nothing. *)
Theorem X2_file_writes_are_synced w severity text g :
  let r := call (logf w severity text) g in
  fileWritesSynced (traceOf r) = true
  /\ (outFd (globalsOf r) = None -> count isSync (traceOf r) = 0%nat).
Proof.
  destruct g as [lvl use app fac sl fn ofd].
  all_paths; try absurd_path; (split; [| intro O]);
    try reflexivity; try discriminate O;
    repeat match goal with
           | |- context [match ?f with Stderr => _ | Opened _ => _ end] =>
             destruct f
           end; cbn; rewrite ?Z.eqb_refl; reflexivity.
Qed.

(** ** When the process exits *)

(** X3: [logf] ends the process through [os.Exit] only with the code 255,
    only for a severity at or above Fatal that passed the filter with a
    message left, and only after its one write. *)
Theorem X3_exit_only_when_fatal w severity text g code :
  outcomeOf (call (logf w severity text) g) = Exited code ->
  code = 255
  /\ SeverityFatal <= severity
  /\ logLevel g <= severity
  /\ trimmed text <> []
  /\ count isWrite (traceOf (call (logf w severity text) g)) = 1%nat.
Proof.
  all_paths; intro H; try discriminate H; injection H as <-; path_facts;
    repeat split; assumption.
Qed.

Lemma X3_exit_only_when_fatal_witness :
  255 = 255
  /\ SeverityFatal <= SeverityFatal
  /\ logLevel (configured SeverityDebug false []) <= SeverityFatal
  /\ trimmed (str "boom") <> []
  /\ count isWrite
       (traceOf (call (logf sampleWorld SeverityFatal (str "boom"))
                      (configured SeverityDebug false [])))
     = 1%nat.
Proof.
  apply (X3_exit_only_when_fatal sampleWorld SeverityFatal (str "boom")
           (configured SeverityDebug false []) 255).
  vm_compute. reflexivity.
Defined.

(** ** What a call changes *)

(** X4: a call of [logf] changes nothing in the globals but the two
    handles, and each of them only from nil to the handle it has just set
    up: a handle that is there stays, and without a [NewLogger] (or an
    [OpenFile]) in the trace the client (or the file) is the one from
    before. *)
Theorem X4_logf_changes_only_the_handles w severity text g :
  let r := call (logf w severity text) g in
  logLevel (globalsOf r) = logLevel g
  /\ useSyslog (globalsOf r) = useSyslog g
  /\ appName (globalsOf r) = appName g
  /\ syslogFacility (globalsOf r) = syslogFacility g
  /\ fileName (globalsOf r) = fileName g
  /\ (syslogger g <> None -> syslogger (globalsOf r) = syslogger g)
  /\ (outFd g <> None -> outFd (globalsOf r) = outFd g)
  /\ (count isNewLogger (traceOf r) = 0%nat ->
      syslogger (globalsOf r) = syslogger g)
  /\ (count isOpen (traceOf r) = 0%nat -> outFd (globalsOf r) = outFd g).
Proof.
  destruct g as [lvl use app fac sl fn ofd].
  all_paths; try absurd_path; repeat split; try reflexivity;
    intro H; try discriminate H;
    repeat match goal with
           | H : _ && _ = true |- _ => apply andb_true_iff in H; destruct H
           | H : isNil ?x = true |- _ => destruct x; [discriminate H | clear H]
           end; congruence.
Qed.

Lemma X4_logf_changes_only_the_handles_witness :
  outFd (globalsOf (call (logf sampleWorld SeverityInfo (str "hello"))
                         (set_outFd (Opened 3)
                            (configured SeverityDebug false
                               (str "/var/log/app.log")))))
  = Some (Opened 3).
Proof.
  refine (proj1 (proj2 (proj2 (proj2 (proj2 (proj2 (proj2
           (X4_logf_changes_only_the_handles sampleWorld SeverityInfo
              (str "hello")
              (set_outFd (Opened 3)
                 (configured SeverityDebug false (str "/var/log/app.log"))))))))))
           _).
  vm_compute. discriminate.
Defined.

(** ** Why a call panics *)

(** X5: a call of [logf] panics for one of four reasons only: the flags
    were never registered (the pointer [useSyslog] is nil), the system
    logger was asked for and its client could not be constructed, the log
    file could not be opened, or the severity has no entry in the tables.
    In the second and third case the panic carries the very error
    [gsyslog.NewLogger] or [os.OpenFile] returned. A call never panics
    before it has passed the filter with a message left. *)
Theorem X5_panic_causes w severity text g v :
  outcomeOf (call (logf w severity text) g) = Panicked v ->
  logLevel g <= severity
  /\ trimmed text <> []
  /\ ((v = NilDereference /\ useSyslog g = None)
      \/ (exists e,
            v = PanicError e
            /\ useSyslog g = Some true /\ syslogger g = None
            /\ NewLogger w LOG_INFO (syslogFacility g) (appName g) = inr e)
      \/ (exists e path,
            v = PanicError e
            /\ fileName g = Some path /\ path <> [] /\ outFd g = None
            /\ OpenFile w path openFlag perm0644 = inr e)
      \/ (v = IndexOutOfRange severity 7
          /\ ~ SeverityDebug <= severity <= SeverityFatal)).
Proof.
  destruct g as [lvl use app fac sl fn ofd].
  cbn [logLevel useSyslog syslogger syslogFacility appName fileName outFd].
  change openFlag with 1089. change perm0644 with 420.
  all_paths; try absurd_path; intro H; try discriminate H;
    injection H as <-; path_facts;
    (split; [assumption |]); (split; [assumption |]);
    repeat match goal with
           | H : _ && _ = true |- _ => apply andb_true_iff in H; destruct H
           | H : isNil ?x = true |- _ => destruct x; [discriminate H | clear H]
           | H : (0 <? len ?p) = true |- _ =>
             assert (p <> []) by (intros ->; discriminate H); clear H
           end.
  all: try (left; split; reflexivity).
  all: try (right; left; eexists; repeat split; eauto; congruence).
  all: try (right; right; left; eexists; eexists; repeat split; eauto;
            congruence).
  all: right; right; right; (split; [reflexivity |]);
    unfold SeverityDebug, SeverityFatal; intros [R0 R6]; path_facts;
    try lia;
    match goal with
    | H : nth_error _ _ = None |- _ =>
      apply nth_error_None in H;
      unfold SeverityName, severityToSyslogPriority in H;
      cbn [length] in H; lia
    end.
Qed.

Lemma X5_panic_causes_witness :
  let g := configured SeverityDebug false (str "/nonexistent/app.log") in
  let v := PanicError (str "open: no such file or directory") in
  logLevel g <= SeverityError
  /\ trimmed (str "disk full") <> []
  /\ ((v = NilDereference /\ useSyslog g = None)
      \/ (exists e,
            v = PanicError e
            /\ useSyslog g = Some true /\ syslogger g = None
            /\ NewLogger sampleWorld LOG_INFO (syslogFacility g) (appName g)
               = inr e)
      \/ (exists e path,
            v = PanicError e
            /\ fileName g = Some path /\ path <> [] /\ outFd g = None
            /\ OpenFile sampleWorld path openFlag perm0644 = inr e)
      \/ (v = IndexOutOfRange SeverityError 7
          /\ ~ SeverityDebug <= SeverityError <= SeverityFatal)).
Proof.
  apply (X5_panic_causes sampleWorld SeverityError (str "disk full")
           (configured SeverityDebug false (str "/nonexistent/app.log"))
           (PanicError (str "open: no such file or directory"))).
  vm_compute. reflexivity.
Defined.

(** X6: the two tables have an entry for each of the seven severities the
    exported functions log at: whatever the globals and the world, none of
    the fourteen functions panics on a table lookup. *)
Theorem X6_exported_functions_find_their_table_entries :
  Forall (fun f => forall w text g i n,
            outcomeOf (call (f w text) g) <> Panicked (IndexOutOfRange i n))
         publicAPI.
Proof.
  unfold publicAPI, Debugf, Infof, Noticef, Warnf, Errorf, Criticalf, Fatalf,
    Debug, Info, Notice, Warn, Error, Critical, Fatal, log.
  repeat constructor; intros w text g i n; all_paths; intro H;
    try discriminate H;
    match goal with
    | N : nth_error _ _ = None |- _ => vm_compute in N; discriminate N
    | N : (0 <=? _) = false |- _ => vm_compute in N; discriminate N
    end.
Qed.

(** ** The threshold only filters *)

(** X7: the threshold has no part in a call beyond the filter: under any
    two thresholds that both let a call pass, the call ends the same way,
    with the same effects in the same order, and leaves the same globals
    (the threshold itself apart). *)
Theorem X7_threshold_only_filters w severity text g t1 t2 :
  t1 <= severity -> t2 <= severity ->
  let r1 := call (logf w severity text) (set_logLevel t1 g) in
  let r2 := call (logf w severity text) (set_logLevel t2 g) in
  outcomeOf r1 = outcomeOf r2
  /\ traceOf r1 = traceOf r2
  /\ globalsOf r1 = set_logLevel t1 (globalsOf r2).
Proof.
  intros H1 H2. apply Z.ltb_ge in H1. apply Z.ltb_ge in H2.
  destruct g as [lvl use app fac sl fn ofd].
  unfold outcomeOf, traceOf, globalsOf, set_logLevel. unfold_logf.
  cbn -[nth_error]. rewrite H1, H2. cbn -[nth_error].
  repeat (split_inner; cbn -[nth_error]); repeat split; reflexivity.
Qed.

Lemma X7_threshold_only_filters_witness :
  traceOf (call (logf sampleWorld SeverityError (str "disk full"))
                (set_logLevel SeverityDebug (configured SeverityInfo false [])))
  = traceOf (call (logf sampleWorld SeverityError (str "disk full"))
                  (set_logLevel SeverityError (configured SeverityInfo false []))).
Proof.
  refine (proj1 (proj2
            (X7_threshold_only_filters sampleWorld SeverityError
               (str "disk full") (configured SeverityInfo false [])
               SeverityDebug SeverityError _ _)));
    vm_compute; discriminate.
Defined.

(** X8: thresholds outside the named levels. A threshold above Fatal, the
    sentinel or any larger number, silences each of the seven severities of
    the exported functions; a threshold at or below Debug, negative ones
    included, lets each of them pass, and the call then does exactly what
    it does at threshold Debug. *)
Theorem X8_thresholds_outside_the_levels w severity text g level :
  In severity publicSeverities ->
  (SeverityFatal < level ->
   call (logf w severity text) (set_logLevel level g)
   = (Returned Filtered, set_logLevel level g, []))
  /\ (level <= SeverityDebug ->
      let r := call (logf w severity text) (set_logLevel level g) in
      let r0 := call (logf w severity text) (set_logLevel SeverityDebug g) in
      outcomeOf r = outcomeOf r0
      /\ traceOf r = traceOf r0
      /\ globalsOf r = set_logLevel level (globalsOf r0)).
Proof.
  intro P.
  assert (R : SeverityDebug <= severity <= SeverityFatal).
  { cbn in P. unfold SeverityDebug, SeverityFatal.
    repeat (destruct P as [<- | P]; [vm_compute; split; discriminate |]).
    destruct P. }
  split.
  - intro L. apply logf_filtered. cbn. lia.
  - intros L r r0; subst r r0.
    assert (H1 : (severity <? level) = false) by (apply Z.ltb_ge; lia).
    assert (H2 : (severity <? SeverityDebug) = false) by (apply Z.ltb_ge; lia).
    destruct g as [lvl use app fac sl fn ofd].
    unfold outcomeOf, traceOf, globalsOf, set_logLevel. unfold_logf.
    cbn -[nth_error]. rewrite H1, H2. cbn -[nth_error].
    repeat (split_inner; cbn -[nth_error]); repeat split; reflexivity.
Qed.

Lemma X8_thresholds_outside_the_levels_witness :
  call (logf sampleWorld SeverityFatal (str "boom"))
       (set_logLevel 100 (configured SeverityDebug false []))
  = (Returned Filtered, set_logLevel 100 (configured SeverityDebug false []), [])
  /\ traceOf (call (logf sampleWorld SeverityDebug (str "hello"))
                   (set_logLevel (-1) (configured SeverityLast false [])))
     = traceOf (call (logf sampleWorld SeverityDebug (str "hello"))
                     (set_logLevel SeverityDebug
                        (configured SeverityLast false []))).
Proof.
  split.
  - refine (proj1 (X8_thresholds_outside_the_levels sampleWorld SeverityFatal
                     (str "boom") (configured SeverityDebug false []) 100 _) _).
    + cbn. tauto.
    + vm_compute. reflexivity.
  - refine (proj1 (proj2 (proj2
              (X8_thresholds_outside_the_levels sampleWorld SeverityDebug
                 (str "hello") (configured SeverityLast false []) (-1) _) _))).
    + cbn. tauto.
    + vm_compute. discriminate.
Defined.

(** ** After [Init] *)

(** A call at one of the seven severities, with the system logger switched
    off, no log file configured and no handle set up. *)
Lemma call_to_stderr w severity text g :
  In severity publicSeverities ->
  useSyslog g = Some false -> fileName g = Some [] ->
  syslogger g = None -> outFd g = None ->
  let r := call (logf w severity text) g in
  globalsOf r = g
  /\ isPanic (outcomeOf r) = false
  /\ (forall code, outcomeOf r = Exited code -> code = 255)
  /\ writesOnlyTo Stderr (traceOf r)
  /\ count isOpen (traceOf r) = 0%nat
  /\ count isNewLogger (traceOf r) = 0%nat.
Proof.
  intros P. destruct g as [lvl use app fac sl fn ofd].
  cbn [useSyslog fileName syslogger outFd]. intros -> -> -> ->.
  unfold writesOnlyTo. cbn in P.
  repeat (destruct P as [<- | P];
          [all_paths;
           try match goal with
               | H : nth_error _ _ = None |- _ =>
                 vm_compute in H; discriminate H
               | H : (0 <=? _) = false |- _ =>
                 vm_compute in H; discriminate H
               end;
           (split; [| split; [| split; [| split; [| split]]]]);
           try reflexivity;
           solve [ intros code H; congruence
                 | intros e H W; in_cases H; subst e; try discriminate W;
                   eauto ] |]).
  destruct P.
Qed.

(** X9: after [Init], as long as the flags stay at their defaults, the
    logger writes to standard error and to nothing else. Whatever the
    arguments of [Init], a process that goes on to make any calls at the
    seven severities opens no file, constructs no system-logger client,
    leaves the globals as [Init] set them, and never panics: it keeps
    running or ends through [os.Exit(255)]. *)
Theorem X9_default_destination_is_stderr app level facility cs :
  Forall (fun c => In (inSeverity c) publicSeverities) cs ->
  let r := run cs (initialized app level facility) in
  globalsOfRun r = initialized app level facility
  /\ writesOnlyTo Stderr (traceOfRun r)
  /\ count isOpen (traceOfRun r) = 0%nat
  /\ count isNewLogger (traceOfRun r) = 0%nat
  /\ (snd r = None \/ snd r = Some (Exited 255)).
Proof.
  intro F. cbv zeta.
  assert (S : useSyslog (initialized app level facility) = Some false
              /\ fileName (initialized app level facility) = Some []
              /\ syslogger (initialized app level facility) = None
              /\ outFd (initialized app level facility) = None)
    by (repeat split; reflexivity).
  generalize dependent (initialized app level facility). intros g S.
  destruct S as (U & N & L & O).
  induction F as [| c cs P _ IH].
  - cbn. repeat split; try reflexivity; [intros e [] | left; reflexivity].
  - rewrite run_cons. unfold invoke.
    destruct (call_to_stderr (inWorld c) (inSeverity c) (inText c) g
                P U N L O) as (G & NP & X & W & CO & CN).
    unfold globalsOf, outcomeOf, traceOf in *.
    destruct (call (logf (inWorld c) (inSeverity c) (inText c)) g)
      as [[o g'] t]. cbn [fst snd] in *. subst g'.
    destruct o as [p | code | v]; cbn [traceOfRun globalsOfRun fst snd].
    + destruct IH as (G' & W' & CO' & CN' & E').
      rewrite !count_app, CO, CN, CO', CN'.
      repeat split; try reflexivity; try assumption.
      intros e H V. apply in_app_or in H. destruct H as [H | H]; eauto.
    + repeat split; try assumption. right. rewrite (X code eq_refl).
      reflexivity.
    + discriminate NP.
Qed.

Lemma X9_default_destination_is_stderr_witness :
  let cs := [ mkInvocation sampleWorld SeverityInfo (str "starting");
              mkInvocation sampleWorld SeverityFatal (str "boom") ] in
  let r := run cs (initialized (str "myapp") SeverityDebug []) in
  count isOpen (traceOfRun r) = 0%nat
  /\ (snd r = None \/ snd r = Some (Exited 255)).
Proof.
  intros cs r.
  destruct (X9_default_destination_is_stderr (str "myapp") SeverityDebug []
              cs) as (_ & _ & O & _ & E).
  - repeat constructor; cbn; tauto.
  - split; assumption.
Defined.




(** ** [Set], [Get] and [String] beyond the seven levels *)

Lemma to_int32_range v : - 2 ^ 31 <= to_int32 v < 2 ^ 31.
Proof.
  unfold to_int32.
  assert (P : 2 ^ 31 = 2147483648) by reflexivity.
  assert (Q : 2 ^ 32 = 4294967296) by reflexivity.
  rewrite P, Q.
  pose proof (Z.mod_pos_bound (v + 2147483648) 4294967296 ltac:(lia)). lia.
Qed.

Lemma to_int32_congruent v : to_int32 v mod 2 ^ 32 = v mod 2 ^ 32.
Proof.
  unfold to_int32.
  assert (P : 2 ^ 31 = 2147483648) by reflexivity.
  assert (Q : 2 ^ 32 = 4294967296) by reflexivity.
  rewrite P, Q. rewrite Zminus_mod_idemp_l. f_equal. lia.
Qed.

(** X11: [Set] accepts the decimal rendering of every [int64] without an
    error, and keeps of it what fits an [int32]: the threshold [Get] then
    returns lies in the range of [int32] and is congruent to the number
    modulo 2^32. A number outside of [int32] is not rejected: it wraps. *)
Theorem X11_Set_wraps_to_int32 (s0 : Severity) (i : Z) :
  - 2 ^ 63 <= i < 2 ^ 63 ->
  Severity_Set s0 (strconv.FormatInt i) = (None, to_int32 i)
  /\ - 2 ^ 31 <= Severity_Get (snd (Severity_Set s0 (strconv.FormatInt i)))
     < 2 ^ 31
  /\ Severity_Get (snd (Severity_Set s0 (strconv.FormatInt i))) mod 2 ^ 32
     = i mod 2 ^ 32.
Proof.
  intro R.
  assert (E : Severity_Set s0 (strconv.FormatInt i) = (None, to_int32 i)).
  { unfold Severity_Set, Severity_set. rewrite Atoi_FormatInt by exact R.
    reflexivity. }
  rewrite E. unfold Severity_Get, Severity_get. cbn [snd].
  split; [reflexivity |]. split; [apply to_int32_range |].
  apply to_int32_congruent.
Qed.

Lemma X11_Set_wraps_to_int32_witness :
  Severity_Set SeverityLast (strconv.FormatInt 4294967299)
  = (None, to_int32 4294967299)
  /\ - 2 ^ 31
     <= Severity_Get
          (snd (Severity_Set SeverityLast (strconv.FormatInt 4294967299)))
     < 2 ^ 31
  /\ Severity_Get
       (snd (Severity_Set SeverityLast (strconv.FormatInt 4294967299)))
     mod 2 ^ 32
     = 4294967299 mod 2 ^ 32.
Proof.
  apply (X11_Set_wraps_to_int32 SeverityLast 4294967299).
  split; [vm_compute; discriminate | vm_compute; reflexivity].
Defined.

Example Set_wraps : Severity_Set SeverityLast (str "4294967299") = (None, 3).
Proof. vm_compute. reflexivity. Qed.

(** Reading up to 19 digits: no error, and the value the digits denote. *)
Lemma parseDigits_value s : forall n (k : nat),
  forallb isDigit s = true ->
  0 <= n < 10 ^ Z.of_nat k ->
  (length s + k <= 19)%nat ->
  strconv.parseDigits s n = (digitsValue s n, None)
  /\ 0 <= digitsValue s n < 10 ^ Z.of_nat (k + length s).
Proof.
  induction s as [| c s IH]; intros n k D N L.
  - cbn. rewrite Nat.add_0_r. split; [reflexivity | exact N].
  - cbn [forallb] in D. apply andb_true_iff in D. destruct D as [Dc Ds].
    cbn [length] in L. cbn [strconv.parseDigits digitsValue fold_left].
    unfold isDigit in Dc. rewrite Dc. cbv zeta.
    unfold utf8.between in Dc. apply andb_true_iff in Dc.
    destruct Dc as [D1 D2]. apply Z.leb_le in D1. apply Z.leb_le in D2.
    rewrite cutoff_value, maxUint64_value.
    assert (P18 : 10 ^ Z.of_nat 18 = 1000000000000000000)
      by (vm_compute; reflexivity).
    pose proof (pow10_mono k 18 ltac:(lia)) as M. rewrite P18 in M.
    replace (1844674407370955162 <=? n) with false
      by (symmetry; apply Z.leb_gt; lia).
    rewrite (Z.mod_small (n * 10 + (b2z c - 48))) by lia.
    replace (n * 10 + (b2z c - 48) <? n * 10) with false
      by (symmetry; apply Z.ltb_ge; lia).
    replace (18446744073709551615 <? n * 10 + (b2z c - 48)) with false
      by (symmetry; apply Z.ltb_ge; lia).
    cbn [orb].
    destruct (IH (n * 10 + (b2z c - 48)) (S k) Ds) as [E B].
    + rewrite Nat2Z.inj_succ, Z.pow_succ_r by lia. lia.
    + lia.
    + split; [exact E |]. cbn [length].
      replace (k + S (length s))%nat with (S k + length s)%nat by lia.
      exact B.
Qed.

Lemma digit_is_not_a_sign c :
  isDigit c = true -> Byte.eqb c x2b = false /\ Byte.eqb c x2d = false.
Proof.
  intro D. split.
  - destruct (Byte.eqb c x2b) eqn:Q; [| reflexivity].
    apply Byte.byte_dec_bl in Q. subst c. discriminate D.
  - destruct (Byte.eqb c x2d) eqn:Q; [| reflexivity].
    apply Byte.byte_dec_bl in Q. subst c. discriminate D.
Qed.

Lemma Atoi_well_formed strVal :
  isBase10Integer strVal = true ->
  (length strVal <= 18)%nat ->
  strconv.Atoi strVal = (decimalValue strVal, None).
Proof.
  unfold isBase10Integer, strconv.Atoi, strconv.ParseInt, decimalValue.
  destruct strVal as [| c rest]; [discriminate |].
  intros F L. cbn [length] in L.
  assert (C : 2 ^ (strconv.intSize - 1) = 9223372036854775808) by reflexivity.
  assert (P18 : 10 ^ Z.of_nat 18 = 1000000000000000000)
    by (vm_compute; reflexivity).
  rewrite C.
  assert (V : forall ds,
             (negb (isNil (hd_error ds)) && forallb isDigit ds) = true ->
             (length ds <= 18)%nat ->
             strconv.ParseUint ds = (digitsValue ds 0, None)
             /\ 0 <= digitsValue ds 0 < 1000000000000000000).
  { intros ds H Ld. apply andb_true_iff in H. destruct H as [Hn Hd].
    destruct (parseDigits_value ds 0 0%nat Hd ltac:(cbn; lia) ltac:(lia))
      as [E B].
    destruct ds as [| d ds']; [discriminate Hn |].
    unfold strconv.ParseUint. split; [exact E |].
    pose proof (pow10_mono (0 + length (d :: ds')) 18 ltac:(lia)) as M.
    rewrite P18 in M. lia. }
  destruct (Byte.eqb c x2d) eqn:Neg.
  - rewrite orb_true_r in *. destruct (V rest F ltac:(lia)) as [E B].
    rewrite E. cbn [negb andb].
    replace (9223372036854775808 <? digitsValue rest 0) with false
      by (symmetry; apply Z.ltb_ge; lia).
    reflexivity.
  - rewrite orb_false_r in *. destruct (Byte.eqb c x2b) eqn:Plus.
    + destruct (V rest F ltac:(lia)) as [E B]. rewrite E. cbn [negb andb].
      replace (9223372036854775808 <=? digitsValue rest 0) with false
        by (symmetry; apply Z.leb_gt; lia).
      reflexivity.
    + destruct (V (c :: rest) F ltac:(cbn [length]; lia)) as [E B].
      rewrite E. cbn [negb andb].
      replace (9223372036854775808 <=? digitsValue (c :: rest) 0) with false
        by (symmetry; apply Z.leb_gt; lia).
      reflexivity.
Qed.

(** X12: [Set] reads a base-10 integer of at most 18 bytes as the number
    it denotes, without an error: a leading [+] and leading zeros are
    accepted, and the threshold becomes that number, converted to
    [int32]. *)
Theorem X12_Set_reads_decimal_integers (s0 : Severity) (strVal : gostring) :
  isBase10Integer strVal = true ->
  (length strVal <= 18)%nat ->
  strconv.Atoi strVal = (decimalValue strVal, None)
  /\ Severity_Set s0 strVal = (None, to_int32 (decimalValue strVal)).
Proof.
  intros F L. pose proof (Atoi_well_formed strVal F L) as E.
  split; [exact E |]. unfold Severity_Set, Severity_set. rewrite E.
  reflexivity.
Qed.

Lemma X12_Set_reads_decimal_integers_witness :
  strconv.Atoi (str "+007") = (decimalValue (str "+007"), None)
  /\ Severity_Set SeverityLast (str "+007")
     = (None, to_int32 (decimalValue (str "+007"))).
Proof.
  apply (X12_Set_reads_decimal_integers SeverityLast (str "+007")).
  - vm_compute. reflexivity.
  - vm_compute. repeat constructor.
Defined.

Example decimalValue_plus_007 : decimalValue (str "+007") = 7.
Proof. vm_compute. reflexivity. Qed.

Lemma digit_isDigit d : isDigit (strconv.digit d) = true.
Proof.
  destruct d as [| p | p]; try reflexivity.
  repeat (destruct p as [p | p |]; try reflexivity).
Qed.

Lemma formatBits_digits n : forall u a,
  forallb isDigit a = true ->
  forallb isDigit (strconv.formatBits n u a) = true.
Proof.
  induction n as [| n IH]; intros u a A; cbn [strconv.formatBits].
  - exact A.
  - destruct (10 <=? u).
    + apply IH. cbn [forallb]. rewrite digit_isDigit. exact A.
    + cbn [forallb]. rewrite digit_isDigit. exact A.
Qed.

Lemma formatBits_length_le n : forall (k : nat) u a,
  (1 <= k)%nat -> 0 <= u < 10 ^ Z.of_nat k ->
  (length (strconv.formatBits n u a) <= k + length a)%nat.
Proof.
  induction n as [| n IH]; intros k u a K U; cbn [strconv.formatBits].
  - lia.
  - destruct (10 <=? u) eqn:T.
    + apply Z.leb_le in T. destruct k as [| [| k]]; [lia | cbn in U; lia |].
      specialize (IH (S k) (u / 10) (strconv.digit (u - u / 10 * 10) :: a)).
      cbn [length] in IH.
      assert (0 <= u / 10 < 10 ^ Z.of_nat (S k)).
      { split; [apply Z.div_pos; lia |].
        apply Z.div_lt_upper_bound; [lia |].
        rewrite (Nat2Z.inj_succ (S k)), Z.pow_succ_r in U by lia. lia. }
      specialize (IH ltac:(lia) ltac:(assumption)). lia.
    + cbn [length]. lia.
Qed.

Lemma FormatInt_is_decimal i : isBase10Integer (strconv.FormatInt i) = true.
Proof.
  unfold strconv.FormatInt, strconv.digits10.
  assert (D : forall u,
             isBase10Integer (strconv.formatBits 20 u []) = true
             /\ (negb (isNil (hd_error (strconv.formatBits 20 u [])))
                 && forallb isDigit (strconv.formatBits 20 u [])) = true).
  { intro u. pose proof (formatBits_grows 19 u []) as G.
    pose proof (formatBits_digits 20 u [] eq_refl) as F.
    destruct (strconv.formatBits 20 u []) as [| c s]; [cbn in G; lia |].
    split; [| exact F]. unfold isBase10Integer.
    cbn [forallb] in F. apply andb_true_iff in F. destruct F as [Fc Fs].
    destruct (digit_is_not_a_sign c Fc) as [-> ->]. cbn [orb hd_error isNil negb].
    cbn [forallb]. rewrite Fc, Fs. reflexivity. }
  destruct (i <? 0).
  - unfold isBase10Integer.
    replace (Byte.eqb x2d x2b || Byte.eqb x2d x2d) with true by reflexivity.
    apply D.
  - apply D.
Qed.

Lemma digits10_are_digits u :
  negb (isNil (hd_error (strconv.digits10 u))) = true
  /\ forallb isDigit (strconv.digits10 u) = true
  /\ hd_error (strconv.digits10 u) <> Some x2d.
Proof.
  unfold strconv.digits10.
  pose proof (formatBits_grows 19 u []) as G.
  pose proof (formatBits_digits 20 u [] eq_refl) as F.
  destruct (strconv.formatBits 20 u []) as [| c s]; [cbn in G; lia |].
  split; [reflexivity |]. split; [exact F |].
  cbn [forallb] in F. apply andb_true_iff in F. destruct F as [Fc _].
  cbn [hd_error]. intro E. injection E as ->. discriminate Fc.
Qed.

(** X13: [String] always renders an optional minus sign followed by one or
    more decimal digits and nothing else, never a plus sign or another
    byte; the minus sign is there exactly when the value is negative; for
    an [int32] the rendering takes at most 11 bytes. So [Set] never meets
    a malformed string when it is given what [String] rendered. *)
Theorem X13_String_renders_a_decimal_integer (s : Severity) :
  isMinusThenDigits (Severity_String s) = true
  /\ (hd_error (Severity_String s) = Some x2d <-> s < 0)
  /\ isBase10Integer (Severity_String s) = true
  /\ (- 2 ^ 31 <= s < 2 ^ 31 -> (length (Severity_String s) <= 11)%nat).
Proof.
  split; [| split; [| split; [apply FormatInt_is_decimal |]]].
  - unfold Severity_String, strconv.FormatInt, isMinusThenDigits.
    destruct (s <? 0).
    + replace (Byte.eqb x2d x2d) with true by reflexivity.
      destruct (digits10_are_digits (- s)) as (A & B & _).
      rewrite A, B. reflexivity.
    + destruct (digits10_are_digits s) as (A & B & C).
      destruct (strconv.digits10 s) as [| c t]; [discriminate A |].
      destruct (Byte.eqb c x2d) eqn:Q.
      * apply Byte.byte_dec_bl in Q. subst c. exfalso. apply C. reflexivity.
      * rewrite A, B. reflexivity.
  - unfold Severity_String, strconv.FormatInt.
    destruct (s <? 0) eqn:N.
    + apply Z.ltb_lt in N. split; [intros _; exact N | reflexivity].
    + apply Z.ltb_ge in N. destruct (digits10_are_digits s) as (_ & _ & C).
      split; [intro E; exfalso; exact (C E) | lia].
  - intro R. assert (P : 2 ^ 31 = 2147483648) by reflexivity. rewrite P in R.
    assert (P10 : 10 ^ Z.of_nat 10 = 10000000000) by (vm_compute; reflexivity).
    unfold Severity_String, strconv.FormatInt, strconv.digits10.
    destruct (s <? 0) eqn:N.
    + apply Z.ltb_lt in N.
      pose proof (formatBits_length_le 20 10 (- s) [] ltac:(lia)
                    ltac:(rewrite P10; lia)) as L.
      cbn [length] in *. lia.
    + apply Z.ltb_ge in N.
      pose proof (formatBits_length_le 20 10 s [] ltac:(lia)
                    ltac:(rewrite P10; lia)) as L.
      cbn [length] in *. lia.
Qed.

Lemma X13_String_renders_a_decimal_integer_witness :
  (length (Severity_String (-2147483648)%Z) <= 11)%nat.
Proof.
  apply (proj2 (proj2 (proj2
           (X13_String_renders_a_decimal_integer (-2147483648))))).
  split; [vm_compute; discriminate | vm_compute; reflexivity].
Defined.

(** ** What is left of a message *)

#[local] Transparent strings.TrimSpace strings.TrimSuffix.

Lemma trimLeft_is_a_suffix f n : forall s,
  exists k, strings.trimLeft n f s = skipn k s.
Proof.
  induction n as [| n IH]; intro s; cbn [strings.trimLeft].
  - exists 0%nat. reflexivity.
  - destruct s as [| c t]; [exists 0%nat; reflexivity |].
    destruct (utf8.DecodeRuneInString (c :: t)) as [r size].
    destruct (f r); [| exists 0%nat; reflexivity].
    destruct (IH (skipn size (c :: t))) as [k E].
    exists (k + size)%nat. rewrite E. apply skipn_skipn.
Qed.

Lemma trimRight_is_a_prefix f n : forall s,
  exists k, strings.trimRight n f s = firstn k s.
Proof.
  induction n as [| n IH]; intro s; cbn [strings.trimRight].
  - exists (length s). symmetry. apply firstn_all.
  - destruct s as [| c t]; [exists 0%nat; reflexivity |].
    destruct (utf8.DecodeLastRuneInString (c :: t)) as [r size].
    destruct (f r); [| exists (length (c :: t)); symmetry; apply firstn_all].
    destruct (IH (firstn (length (c :: t) - size) (c :: t))) as [k E].
    exists (Nat.min k (length (c :: t) - size)). rewrite E.
    apply firstn_firstn.
Qed.

Lemma TrimSuffix_is_a_prefix s suffix :
  exists k, strings.TrimSuffix s suffix = firstn k s.
Proof.
  unfold strings.TrimSuffix. destruct (strings.HasSuffix s suffix).
  - eexists. reflexivity.
  - exists (length s). symmetry. apply firstn_all.
Qed.

(** X14: trimming only cuts at the two ends: the message [logf] goes on
    with is a contiguous part of the rendered text, white space and line
    feeds inside it included. *)
Theorem X14_trimmed_message_is_part_of_the_text (text : gostring) :
  exists before after, text = before ++ trimmed text ++ after.
Proof.
  unfold trimmed, strings.TrimSpace, strings.TrimRightFunc,
    strings.TrimLeftFunc.
  destruct (TrimSuffix_is_a_prefix text LF) as [c ->].
  set (s1 := firstn c text).
  destruct (trimLeft_is_a_suffix unicode.IsSpace (length s1) s1) as [b ->].
  set (s2 := skipn b s1).
  destruct (trimRight_is_a_prefix unicode.IsSpace (length s2) s2) as [a ->].
  exists (firstn b s1), (skipn a s2 ++ skipn c text).
  rewrite (app_assoc (firstn a s2)), firstn_skipn.
  subst s2. rewrite app_assoc, firstn_skipn. subst s1. symmetry.
  apply firstn_skipn.
Qed.

Lemma trimLeft_stops f n : forall s,
  (length s <= n)%nat ->
  strings.trimLeft n f s = []
  \/ f (fst (utf8.DecodeRuneInString (strings.trimLeft n f s))) = false.
Proof.
  induction n as [| n IH]; intros s L.
  - destruct s; [left; reflexivity | cbn in L; lia].
  - cbn [strings.trimLeft]. destruct s as [| c t]; [left; reflexivity |].
    pose proof (DecodeRuneInString_size (c :: t) ltac:(discriminate)) as S.
    destruct (utf8.DecodeRuneInString (c :: t)) as [r size] eqn:D.
    cbn [snd] in S. destruct (f r) eqn:F.
    + apply IH. pose proof (length_skipn size (c :: t)).
      cbn [length] in *. lia.
    + right. rewrite D. exact F.
Qed.

Lemma trimRight_stops f n : forall s,
  (length s <= n)%nat ->
  strings.trimRight n f s = []
  \/ f (fst (utf8.DecodeLastRuneInString (strings.trimRight n f s))) = false.
Proof.
  induction n as [| n IH]; intros s L.
  - destruct s; [left; reflexivity | cbn in L; lia].
  - cbn [strings.trimRight]. destruct s as [| c t]; [left; reflexivity |].
    pose proof (DecodeLastRuneInString_size (c :: t) ltac:(discriminate)) as S.
    destruct (utf8.DecodeLastRuneInString (c :: t)) as [r size] eqn:D.
    cbn [snd] in S. destruct (f r) eqn:F.
    + apply IH.
      pose proof (length_firstn (length (c :: t) - size) (c :: t)).
      cbn [length] in *. lia.
    + right. rewrite D. exact F.
Qed.

Lemma ascii_space_is_space b :
  isAsciiSpace b = true ->
  (b2z b <? utf8.RuneSelf) = true /\ unicode.IsSpace (b2z b) = true.
Proof.
  unfold isAsciiSpace, unicode.IsSpace, utf8.between, utf8.RuneSelf.
  intro H. apply orb_true_iff in H. split.
  - apply Z.ltb_lt. destruct H as [H | H].
    + apply andb_true_iff in H. destruct H as [_ H]. apply Z.leb_le in H. lia.
    + apply Z.eqb_eq in H. lia.
  - destruct H as [H | H]; rewrite H; [reflexivity |].
    rewrite !orb_true_r. reflexivity.
Qed.

Lemma trimmed_ends (text : gostring) :
  (forall b rest, trimmed text = b :: rest -> isAsciiSpace b = false)
  /\ (forall front b, trimmed text = front ++ [b] -> isAsciiSpace b = false).
Proof.
  unfold trimmed, strings.TrimSpace, strings.TrimRightFunc,
    strings.TrimLeftFunc.
  set (s1 := strings.TrimSuffix text LF).
  set (s2 := strings.trimLeft (length s1) unicode.IsSpace s1).
  pose proof (trimLeft_stops unicode.IsSpace (length s1) s1 (le_n _)) as L.
  fold s2 in L.
  pose proof (trimRight_stops unicode.IsSpace (length s2) s2 (le_n _)) as R.
  destruct (trimRight_is_a_prefix unicode.IsSpace (length s2) s2) as [k P].
  set (s3 := strings.trimRight (length s2) unicode.IsSpace s2) in *.
  split.
  - intros b rest E. destruct (isAsciiSpace b) eqn:A; [| reflexivity].
    exfalso. destruct (ascii_space_is_space b A) as [A1 A2].
    rewrite E in P.
    destruct s2 as [| b' t2]; [destruct k; discriminate P |].
    destruct k as [| k]; [discriminate P |]. cbn [firstn] in P.
    injection P as <- _.
    destruct L as [L | L]; [discriminate L |].
    unfold utf8.DecodeRuneInString in L. rewrite A1 in L. cbn [fst] in L.
    congruence.
  - intros front b E. destruct (isAsciiSpace b) eqn:A; [| reflexivity].
    exfalso. destruct (ascii_space_is_space b A) as [A1 A2].
    destruct R as [R | R]; [rewrite E in R; destruct front; discriminate R |].
    rewrite E in R. unfold utf8.DecodeLastRuneInString in R.
    rewrite rev_app_distr in R. cbn [rev app] in R. rewrite A1 in R.
    cbn [fst] in R. congruence.
Qed.

#[local] Opaque strings.TrimSpace strings.TrimSuffix.

(** X15: what [logf] hands to the system logger is the trimmed message as
    it is, with no time stamp or name added; it is never empty and neither
    begins nor ends with a white-space byte of ASCII (space, tab, line feed,
    vertical tab, form feed, carriage return). *)
Theorem X15_syslog_message_is_trimmed w severity text g l p m :
  In (WriteLevel l p m) (traceOf (call (logf w severity text) g)) ->
  m = trimmed text
  /\ m <> []
  /\ (forall b rest, m = b :: rest -> isAsciiSpace b = false)
  /\ (forall front b, m = front ++ [b] -> isAsciiSpace b = false).
Proof.
  intro H.
  assert (K : m = trimmed text /\ m <> []).
  { revert H. all_paths; intros H; in_cases H; injection H as <- <- <-;
      path_facts; (split; [reflexivity | assumption]). }
  destruct K as [-> N]. split; [reflexivity |]. split; [exact N |].
  apply trimmed_ends.
Qed.

Lemma X15_syslog_message_is_trimmed_witness :
  str "hello" = trimmed (str "  hello " ++ LF)
  /\ str "hello" <> []
  /\ (forall b rest, str "hello" = b :: rest -> isAsciiSpace b = false)
  /\ (forall front b, str "hello" = front ++ [b] -> isAsciiSpace b = false).
Proof.
  apply (X15_syslog_message_is_trimmed sampleWorld SeverityInfo
           (str "  hello " ++ LF) (configured SeverityDebug true [])
           77 LOG_INFO (str "hello")).
  vm_compute. right. right. left. reflexivity.
Defined.

(** ** The layout of a line *)

#[local] Transparent fmt.Sprintf.

Lemma fmtInteger_two_digits v :
  0 <= v <= 99 -> length (fmt.fmtInteger true (Some 2) v) = 2%nat.
Proof.
  intro R. unfold fmt.fmtInteger, fmt.pad, strconv.digits10, len.
  replace (v <? 0) with false by (symmetry; apply Z.ltb_ge; lia).
  pose proof (formatBits_length_le 20 2 v [] ltac:(lia)
                ltac:(change (10 ^ Z.of_nat 2) with 100; lia)) as U.
  pose proof (formatBits_grows 19 v []) as G. cbn [length] in U, G.
  repeat (rewrite length_app || rewrite repeat_length). lia.
Qed.

Lemma fmtInteger_four_digit_year y :
  1000 <= y <= 9999 -> length (fmt.fmtInteger false None y) = 4%nat.
Proof.
  intro R. unfold fmt.fmtInteger, fmt.pad.
  replace (y <? 0) with false by (symmetry; apply Z.ltb_ge; lia).
  pose proof (digits10_of_four_digits y ltac:(lia)) as G. unfold len in G.
  pose proof (formatBits_length_le 20 4 y [] ltac:(lia)
                ltac:(change (10 ^ Z.of_nat 4) with 10000; lia)) as U.
  unfold strconv.digits10 in *. cbn [length] in U.
  unfold len. repeat (rewrite length_app || rewrite repeat_length). lia.
Qed.

(** X16: on a clock with a four-digit year and month, day, hour, minute
    and second in their ranges, every line written to the log file or to
    standard error starts with a time stamp of exactly 21 bytes,
    [[YYYY-MM-DD HH:MM:SS]]; the application name starts at byte 23, and
    the line is 29 bytes longer than name, severity name and message
    together. *)
Theorem X16_time_stamp_has_a_fixed_width w severity text g f line :
  wallClock (Now w) ->
  In (WriteString f line) (traceOf (call (logf w severity text) g)) ->
  exists stamp name,
    length stamp = 21%nat
    /\ nth_error SeverityName (Z.to_nat severity) = Some name
    /\ line = stamp ++ str " [" ++ appName g ++ str "] [" ++ name
              ++ str "] " ++ trimmed text ++ LF
    /\ length line
       = (29 + length (appName g) + length name
          + length (trimmed text))%nat.
Proof.
  intros (Y & Mo & D & H & Mi & S) I.
  destruct (written_line w severity text g f line I) as (name & N & ->).
  set (now := Now w) in *.
  set (stamp :=
         str "[" ++ fmt.fmtInteger false None (year now)
         ++ str "-" ++ fmt.fmtInteger true (Some 2) (month now)
         ++ str "-" ++ fmt.fmtInteger true (Some 2) (day now)
         ++ str " " ++ fmt.fmtInteger true (Some 2) (hour now)
         ++ str ":" ++ fmt.fmtInteger true (Some 2) (minute now)
         ++ str ":" ++ fmt.fmtInteger true (Some 2) (second now)
         ++ str "]").
  assert (L : length stamp = 21%nat).
  { subst stamp. rewrite !length_app.
    rewrite (fmtInteger_four_digit_year _ Y).
    rewrite !fmtInteger_two_digits by lia. reflexivity. }
  assert (E : fmt.Sprintf lineFormat
                (lineArgs now (appName g) name (trimmed text))
              = stamp ++ str " [" ++ appName g ++ str "] [" ++ name
                ++ str "] " ++ trimmed text ++ LF).
  { subst stamp. unfold fmt.Sprintf, lineFormat, lineArgs.
    cbn [fmt.doPrintf]. repeat rewrite <- app_assoc. reflexivity. }
  exists stamp, name. split; [exact L |]. split; [exact N |].
  split; [exact E |]. rewrite E. rewrite !length_app, L. cbn [length str].
  change (length (str " [")) with 2%nat.
  change (length (str "] [")) with 3%nat.
  change (length (str "] ")) with 2%nat.
  change (length LF) with 1%nat. lia.
Qed.

#[local] Opaque fmt.Sprintf.

Lemma X16_time_stamp_has_a_fixed_width_witness :
  exists stamp name,
    length stamp = 21%nat
    /\ nth_error SeverityName (Z.to_nat SeverityWarning) = Some name
    /\ str "[2018-03-07 09:05:00] [myapp] [WARNING] disk at 91%" ++ LF
       = stamp ++ str " [" ++ appName (configured SeverityWarning false [])
         ++ str "] [" ++ name ++ str "] " ++ trimmed (str "disk at 91%") ++ LF
    /\ length (str "[2018-03-07 09:05:00] [myapp] [WARNING] disk at 91%" ++ LF)
       = (29 + length (appName (configured SeverityWarning false []))
          + length name + length (trimmed (str "disk at 91%")))%nat.
Proof.
  apply (X16_time_stamp_has_a_fixed_width sampleWorld SeverityWarning
           (str "disk at 91%") (configured SeverityWarning false []) Stderr).
  - vm_compute. repeat split; discriminate.
  - vm_compute. right. left. reflexivity.
Defined.

(** ** The system logger takes over *)

(** X18: the flags are read at every call, and the system logger comes
    first even over a log file that is already open: when the switch is on
    and no client exists yet, an accepted call constructs the client and
    writes to it; the open file is kept but gets neither this line nor a
    [Sync]. *)
Theorem X18_system_logger_takes_over_an_open_file w severity text g f l :
  SeverityDebug <= severity <= SeverityFatal ->
  logLevel g <= severity ->
  trimmed text <> [] ->
  outFd g = Some f ->
  useSyslog g = Some true ->
  syslogger g = None ->
  NewLogger w LOG_INFO (syslogFacility g) (appName g) = inl l ->
  let r := call (logf w severity text) g in
  syslogger (globalsOf r) = Some l
  /\ outFd (globalsOf r) = Some f
  /\ exists p,
       nth_error severityToSyslogPriority (Z.to_nat severity) = Some p
       /\ io (traceOf r)
          = [ CallNewLogger LOG_INFO (syslogFacility g) (appName g);
              WriteLevel l p (trimmed text) ].
Proof.
  intros R H E O U S NL r; subst r.
  pose proof (nth_error_in_range severityToSyslogPriority severity eq_refl R)
    as N2.
  assert (Z0 : (0 <=? severity) = true)
    by (apply Z.leb_le; unfold SeverityDebug in R; lia).
  destruct g as [lvl use app fac sl fn ofd]. cbn in O, U, S. subst ofd use sl.
  cbn [syslogFacility appName] in *.
  unfold io. accepted_paths H E; try absurd_path; try congruence.
  all: repeat split; try congruence; eexists; split; eauto; congruence.
Qed.

Lemma X18_system_logger_takes_over_an_open_file_witness :
  let g := set_outFd (Opened 3)
             (configured SeverityDebug true (str "/var/log/app.log")) in
  let r := call (logf sampleWorld SeverityError (str "disk full")) g in
  syslogger (globalsOf r) = Some 77
  /\ outFd (globalsOf r) = Some (Opened 3)
  /\ exists p,
       nth_error severityToSyslogPriority (Z.to_nat SeverityError) = Some p
       /\ io (traceOf r)
          = [ CallNewLogger LOG_INFO (syslogFacility g) (appName g);
              WriteLevel 77 p (trimmed (str "disk full")) ].
Proof.
  intros g.
  apply (X18_system_logger_takes_over_an_open_file sampleWorld SeverityError
           (str "disk full") g (Opened 3) 77).
  - vm_compute. split; discriminate.
  - vm_compute. discriminate.
  - vm_compute. discriminate.
  - reflexivity.
  - reflexivity.
  - reflexivity.
  - reflexivity.
Defined.
